(** * abiflows: FireWorks workflow builders for Abinit

    A shallow embedding of [abiflows/fireworks/workflows/abinit_workflows.py]:
    the workflow builder classes, the auxiliary operations they share and the
    result-retrieval queries of [RelaxFWWorkflow] and
    [PiezoElasticFWWorkflow], as Python 3.11 runs them.

    Python objects are modelled as follows.
    - Immutable values ([None], booleans, integers, floats, strings) are
      constructors of [val]; Python floats are IEEE binary64 numbers, that is
      Rocq's primitive [float]; a Python string is the [string] of the bytes
      of its UTF-8 encoding.
    - A [dict] is a mutable object: it lives in a store ([heap]) and is
      referred to by [VRef l].  [dict(d)] and [d.copy()] allocate a new
      object; [d[k] = v] updates the object in place.
    - A [dict] that is only read (the specification of a container loaded
      from the database, the metadata of a workflow) is a finite map
      [gmap string val]. *)

From Stdlib Require Import ZArith String Ascii List Floats Lia.
From stdpp Require Import base gmap strings list.

Set Warnings "-register-all".

(** ** Python values, exceptions and results *)

Definition loc := nat.

Inductive val :=
| VNone
| VBool (b : bool)
| VInt (z : Z)
| VFloat (f : float)
| VStr (s : string)
| VList (l : list val)
| VRef (l : loc).

Abbreviation dict := (gmap string val).

Inductive exn :=
| AssertionError
| KeyError (k : val)
| IndexError
| TypeError (msg : string)
| ValueError
| OverflowError
| RuntimeError (msg : string)
| NotImplementedError (msg : string).

Inductive result (A : Type) :=
| Ok (a : A)
| Raise (e : exn).
Arguments Ok {A} a.
Arguments Raise {A} e.

#[global] Instance result_ret : MRet result := λ A a, Ok a.
#[global] Instance result_bind : MBind result :=
  λ A B f m, match m with Ok a => f a | Raise e => Raise e end.

Definition is_ok {A} (r : result A) : bool :=
  match r with Ok _ => true | Raise _ => false end.

(** [assert b] *)
Definition py_assert (b : bool) : result unit :=
  if b then Ok tt else Raise AssertionError.

(** [d[k]] on a dict that is only read. *)
Definition getitem (d : dict) (k : string) : result val :=
  match d !! k with
  | Some v => Ok v
  | None => Raise (KeyError (VStr k))
  end.

(** [l[-1]] *)
Definition list_last {A} (l : list A) : result A :=
  match last l with
  | Some a => Ok a
  | None => Raise IndexError
  end.

(** [v == s] for a string literal [s]: an object of another type is never
    equal to a string. *)
Definition val_eq_str (v : val) (s : string) : bool :=
  match v with
  | VStr s' => String.eqb s' s
  | _ => false
  end.

(** ** Strings

    A Python string is a sequence of Unicode code points.  It is held as the
    [string] of the bytes of its UTF-8 encoding, so that the literals of the
    source are the literals here; slices count characters, not bytes. *)

(** A byte that continues a character. *)
Definition is_continuation (c : ascii) : bool :=
  let n := nat_of_ascii c in (128 <=? n)%nat && (n <? 192)%nat.

(** The characters of a string, each with the bytes of its code point. *)
Fixpoint str_chars (s : string) : list string :=
  match s with
  | EmptyString => []
  | String c s' =>
      match s' with
      | String c' _ =>
          if is_continuation c' then
            match str_chars s' with
            | w :: ws => String c w :: ws
            | [] => [String c EmptyString]
            end
          else String c EmptyString :: str_chars s'
      | EmptyString => [String c EmptyString]
      end
  end.

Definition str_join (l : list string) : string :=
  foldr String.append EmptyString l.

(** [len(s)] *)
Definition str_len (s : string) : nat := length (str_chars s).

(** [s[:n]] *)
Definition str_prefix (n : nat) (s : string) : string :=
  str_join (take n (str_chars s)).

(** [s[-n:]] for [n > 0] *)
Definition str_suffix (n : nat) (s : string) : string :=
  str_join (drop (str_len s - n) (str_chars s)).

(** [s.split(c)] for a one-character ASCII separator. *)
Fixpoint str_split (c : ascii) (s : string) : list string :=
  match s with
  | EmptyString => [EmptyString]
  | String a s' =>
      if Ascii.eqb a c then EmptyString :: str_split c s'
      else match str_split c s' with
           | w :: ws => String a w :: ws
           | [] => [String a EmptyString]
           end
  end.

(** [s.split(c)[-1]]; [split] never returns an empty list. *)
Definition str_split_last (c : ascii) (s : string) : string :=
  default EmptyString (last (str_split c s)).

(** *** [int(s)] in base 10

    The [int] of Python 3.11 on a string.  Each character beyond ASCII is
    first replaced: a space of Unicode by a blank, a decimal digit of any
    script by its ASCII digit.  Then surrounding ASCII whitespace is skipped,
    one sign is accepted, and digits must follow, with single underscores
    allowed between them, at most [int_max_str_digits] digits in all.
    Anything else is a [ValueError], [None] here. *)

Definition byte_value (c : ascii) : Z := Z.of_nat (nat_of_ascii c).

Definition continues (b : Z) : bool := (128 <=? b)%Z && (b <? 192)%Z.

(** The code point of a character; [None] when its bytes do not encode
    one. *)
Definition code_point (w : string) : option Z :=
  match byte_value <$> list_ascii_of_string w with
  | [a] => if (a <? 128)%Z then Some a else None
  | [a; b] =>
      if (194 <=? a)%Z && (a <? 224)%Z && continues b
      then Some ((a - 192) * 64 + (b - 128))%Z else None
  | [a; b; c] =>
      let cp := ((a - 224) * 4096 + (b - 128) * 64 + (c - 128))%Z in
      if (224 <=? a)%Z && (a <? 240)%Z && continues b && continues c
         && (2048 <=? cp)%Z && negb ((55296 <=? cp)%Z && (cp <? 57344)%Z)
      then Some cp else None
  | [a; b; c; d] =>
      let cp :=
        ((a - 240) * 262144 + (b - 128) * 4096 + (c - 128) * 64
         + (d - 128))%Z in
      if (240 <=? a)%Z && continues b && continues c && continues d
         && (65536 <=? cp)%Z && (cp <? 1114112)%Z
      then Some cp else None
  | _ => None
  end.

Definition code_points (s : string) : option (list Z) :=
  mapM code_point (str_chars s).

(** The code points beyond ASCII that [str.isspace] holds of. *)
Definition unicode_spaces : list Z :=
  [
   0x85; 0xa0; 0x1680; 0x2000; 0x2001; 0x2002; 0x2003; 0x2004; 0x2005;
   0x2006; 0x2007; 0x2008; 0x2009; 0x200a; 0x2028; 0x2029; 0x202f; 0x205f;
   0x3000
  ]%Z.

(** The zeros of the decimal digits of Unicode 14.0, the database of
    Python 3.11: the ten digits of a script are consecutive code points. *)
Definition decimal_zeros : list Z :=
  [
   0x30; 0x660; 0x6f0; 0x7c0; 0x966; 0x9e6; 0xa66; 0xae6; 0xb66; 0xbe6;
   0xc66; 0xce6; 0xd66; 0xde6; 0xe50; 0xed0; 0xf20; 0x1040; 0x1090; 0x17e0;
   0x1810; 0x1946; 0x19d0; 0x1a80; 0x1a90; 0x1b50; 0x1bb0; 0x1c40; 0x1c50;
   0xa620; 0xa8d0; 0xa900; 0xa9d0; 0xa9f0; 0xaa50; 0xabf0; 0xff10; 0x104a0;
   0x10d30; 0x11066; 0x110f0; 0x11136; 0x111d0; 0x112f0; 0x11450; 0x114d0;
   0x11650; 0x116c0; 0x11730; 0x118e0; 0x11950; 0x11c50; 0x11d50; 0x11da0;
   0x16a60; 0x16ac0; 0x16b50; 0x1d7ce; 0x1d7d8; 0x1d7e2; 0x1d7ec; 0x1d7f6;
   0x1e140; 0x1e2f0; 0x1e950; 0x1fbf0
  ]%Z.

(** [unicodedata.decimal(chr(cp))] *)
Definition decimal_value (cp : Z) : option Z :=
  (λ zero, cp - zero)%Z
    <$> List.find (λ zero, (zero <=? cp)%Z && (cp <? zero + 10)%Z)
          decimal_zeros.

(** The ASCII character that stands for a code point when [int] reads it. *)
Definition ascii_of_code_point (cp : Z) : option Z :=
  if (cp <? 127)%Z then Some cp
  else if bool_decide (cp ∈ unicode_spaces) then Some 32%Z
  else (λ d, 48 + d)%Z <$> decimal_value cp.

Definition is_space (c : Z) : bool :=
  ((9 <=? c)%Z && (c <=? 13)%Z) || (c =? 32)%Z.

Definition is_digit (c : Z) : bool := (48 <=? c)%Z && (c <=? 57)%Z.

Fixpoint drop_spaces (l : list Z) : list Z :=
  match l with
  | c :: l' => if is_space c then drop_spaces l' else l
  | [] => []
  end.

(** What the scan of the digits has just read. *)
Inductive scan_state := Start | AfterDigit | AfterUnderscore.

(** The scan stops after a digit, or not at all. *)
Definition scan_end (st : scan_state) (acc count : Z) (rest : list Z)
  : option (Z * Z * list Z) :=
  match st with
  | AfterDigit => Some (acc, count, rest)
  | _ => None
  end.

(** The digits of a literal: their value, their number and what follows
    them.  An underscore is accepted after a digit only. *)
Fixpoint scan_digits (st : scan_state) (acc count : Z) (l : list Z)
  : option (Z * Z * list Z) :=
  match l with
  | c :: l' =>
      if is_digit c then
        scan_digits AfterDigit (acc * 10 + (c - 48))%Z (count + 1)%Z l'
      else if (c =? 95)%Z then
        match st with
        | AfterDigit => scan_digits AfterUnderscore acc count l'
        | _ => None
        end
      else scan_end st acc count l
  | [] => scan_end st acc count []
  end.

(** The default of [sys.int_max_str_digits]. *)
Definition int_max_str_digits : Z := 4300.

Definition parse_int (l : list Z) : option Z :=
  let l := drop_spaces l in
  let '(sign, l) :=
    match l with
    | 45%Z :: l' => ((-1)%Z, l')
    | 43%Z :: l' => (1%Z, l')
    | _ => (1%Z, l)
    end in
  '(n, count, rest) ← scan_digits Start 0 0 l;
  if (count <=? int_max_str_digits)%Z && forallb is_space rest
  then Some (sign * n)%Z else None.

Definition py_int (s : string) : option Z :=
  cps ← code_points s;
  l ← mapM ascii_of_code_point cps;
  parse_int l.

(** *** Numbers

    [float(n)] for a Python integer: rounding to nearest-even, and
    [OverflowError] when the integer is too large. *)
Definition float_of_int (z : Z) : result float :=
  let f := SF2Prim (binary_normalize prec emax z 0 false) in
  if PrimFloat.is_infinity f then Raise OverflowError else Ok f.

(** [r * v] where [r] is the [runtime_secs] of a launch (a float, or [None]
    while the launch has not finished). *)
Definition runtime_mul (r : option float) (v : val) : result float :=
  match r, v with
  | Some a, VInt n => c ← float_of_int n; Ok (PrimFloat.mul a c)
  | Some a, VBool b => Ok (PrimFloat.mul a (if b then 1%float else 0%float))
  | Some a, VFloat c => Ok (PrimFloat.mul a c)
  | _, _ => Raise (TypeError "unsupported operand type(s) for *")
  end.

(** [t += r] for a float [t] *)
Definition runtime_add (t : float) (r : option float) : result float :=
  match r with
  | Some a => Ok (PrimFloat.add t a)
  | None => Raise (TypeError "unsupported operand type(s) for +=")
  end.

(** [os.path.join(a, b)] for a relative [b] *)
Definition path_join (a b : string) : string :=
  if String.eqb a "" then b
  else if String.eqb (str_suffix 1 a) "/" then a +:+ b
  else a +:+ "/" +:+ b.

(** [for x in l: st = body(st, x)], where the body may raise. *)
Fixpoint for_each {S A} (body : S → A → result S) (st : S) (l : list A)
  : result S :=
  match l with
  | [] => Ok st
  | a :: l' => st' ← body st a; for_each body st' l'
  end.

(** ** Tasks, launches, containers and workflow graphs *)

(** The task classes of [abiflows.fireworks.tasks]. *)
Inductive TaskClass :=
| AbiFireTask | ScfFWTask | RelaxFWTask | NscfFWTask | HybridFWTask
| RelaxDilatmxFWTask | GeneratePhononFlowFWTask
| AnaDdbTask | StrainPertTask | DdkTask | MergeDdbTask
| FinalCleanUpTask | DatabaseInsertTask.

(** The [deps] argument of a task: absent, a mapping from the task type of
    the producer to the extension it provides, or a list of extensions. *)
Inductive Deps :=
| NoDeps
| DepsMap (l : list (string * string))
| DepsList (l : list string).

(** A task wrapper records the class and the arguments it was built from, and
    the working directory bound by [set_workdir]. *)
Record Task := mkTask {
  task_class : TaskClass;
  task_args : list val;
  task_kwargs : list (string * val);
  task_deps : Deps;
  task_workdir : option string }.

Definition set_workdir (t : Task) (workdir : string) : Task :=
  {| task_class := task_class t; task_args := task_args t;
     task_kwargs := task_kwargs t; task_deps := task_deps t;
     task_workdir := Some workdir |}.

Record Launch := mkLaunch {
  launch_dir : string;
  runtime_secs : option float }.

(** A container.  [S] is how its specification is held: a reference [loc] to
    the dict object while the workflow is built, the mapping itself once the
    workflow is only read. *)
Record Firework (S : Type) := mkFirework {
  tasks : list Task;
  spec : S;
  name : string;
  fw_id : Z;
  launches : list Launch;
  archived_launches : list Launch }.
Arguments mkFirework {S}.
Arguments tasks {S}.
Arguments spec {S}.
Arguments name {S}.
Arguments fw_id {S}.
Arguments launches {S}.
Arguments archived_launches {S}.

(** A workflow graph: [id_fw] lists the items of the dict from container id
    to container in iteration order, [links] maps a container id to the ids of
    its successors. *)
Record Workflow (S : Type) := mkWorkflow {
  id_fw : list (Z * Firework S);
  links : list (Z * list Z);
  wf_name : string;
  metadata : dict }.
Arguments mkWorkflow {S}.
Arguments id_fw {S}.
Arguments links {S}.
Arguments wf_name {S}.
Arguments metadata {S}.

(** [d[k]] for a dict keyed by container id. *)
Fixpoint assoc_get {A} (l : list (Z * A)) (k : Z) : result A :=
  match l with
  | [] => Raise (KeyError (VInt k))
  | (k', a) :: l' => if (k' =? k)%Z then Ok a else assoc_get l' k
  end.

(** ** External collaborators

    What the workflow layer calls without defining it: the queue profile of
    [fw_utils], the task classes of [abinit_tasks], the input factories of
    abipy, pymatgen structures and monty's [loadfn]. *)

(** A pymatgen structure, as far as the workflow layer looks at it. *)
Record Structure := mkStructure {
  num_sites : nat;                  (* len(structure) *)
  element_symbols : list string;    (* [el.symbol for el in composition.elements] *)
  reduced_formula : string }.       (* composition.reduced_formula *)

(** A call [d(inp)] of an input decorator: the state in which it leaves the
    object it is given, and the object it returns.  The decorators of abipy
    work on a copy of their argument, so that [dec_inplace] is the identity. *)
Record Decorator := mkDecorator {
  dec_inplace : val → val;
  dec_return : val → val }.

(** The physical parameters that [from_factory] hands to the input factories. *)
Record FactoryOptions := mkFactoryOptions {
  kppa : val; ecut : val; pawecutdg : val; nband : val; accuracy : val;
  spin_mode : val; smearing : val; charge : val; scf_algorithm : val;
  shift_mode : val }.

Class Collaborators := {
  (** [scf_input(structure, pseudos, ...)] *)
  scf_input : val → val → FactoryOptions → val;
  (** [ion_ioncell_relax_input(structure, pseudos, ...)]: the inputs of the
      two relaxation steps *)
  ion_ioncell_relax_input : val → val → FactoryOptions → val * val;
  (** the state of an input after [inp.set_vars(vars)] *)
  set_vars : val → dict → val;
  (** [IoncellRelaxFromGsFactory(accuracy, extra_abivars, decorators)] *)
  IoncellRelaxFromGsFactory : val → dict → list Decorator → val;
  (** [get_short_single_core_spec()] *)
  get_short_single_core_spec : val;
  (** the [task_type] attribute of a task class *)
  task_type : TaskClass → string;
  (** the object that [get_reduced_formula] finds in a calculation input or
      factory ([input.structure], [input.kwargs['structure']] or
      [input.args[0]]): a structure, or [None].  An input on which this
      lookup raises is outside the model: the handler then reads
      [e.message], which raises [AttributeError] on Python 3, so that the
      constructor builds nothing. *)
  input_structure : val → option Structure;
  (** [scf_inp.structure] *)
  structure_attr : val → val;
  (** [AnaddbInput.piezo_elastic(structure)] *)
  piezo_elastic : val → val;
  (** [task.get_final_structure()] of a task bound to its run directory *)
  get_final_structure : Task → result val;
  (** [structure.as_dict()] *)
  as_dict : val → result val;
  (** [loadfn(path)] *)
  loadfn : string → result val }.

(** The options of [PhononFWWorkflow.from_factory] that go to the factory
    of the phonon inputs. *)
Record PhononOptions := mkPhononOptions {
  ph_ngqpt : val; with_ddk : val; with_dde : val; with_bec : val;
  ph_tol : val; ddk_tol : val; dde_tol : val }.

(** The collaborators of the auxiliary containers, of the queries of
    [PiezoElasticFWWorkflow] and of [PhononFWWorkflow.from_factory].  A
    factory keeps the [extra_abivars] mapping it is given: it receives the
    object, not its content. *)
Class AuxCollaborators := {
  (** [mongo_database.as_dict()] *)
  mongo_as_dict : val → val;
  (** [task.get_elastic_tensor()] of a task bound to its run directory *)
  get_elastic_tensor : Task → result val;
  (** [elastic_tensor.extended_dict()] *)
  extended_dict : val → result val;
  (** [ScfForPhononsFactory(structure, pseudos, ..., extra_abivars,
      decorators)] *)
  ScfForPhononsFactory :
    val → val → FactoryOptions → loc → list Decorator → val;
  (** [PhononsFromGsFactory(ph_ngqpt, ..., extra_abivars, decorators)] *)
  PhononsFromGsFactory : PhononOptions → loc → list Decorator → val }.

(** ** Building workflows: the store of dict objects *)

(** The store: the dict objects allocated so far, the next free location and
    the counter [NEGATIVE_FWID_CTR] from which FireWorks numbers containers
    that have not been inserted in the database. *)
Record state := mkState {
  heap : gmap loc dict;
  next_loc : loc;
  fwid_ctr : Z }.

Definition M (A : Type) : Type := state → A * state.

#[global] Instance M_ret : MRet M := λ A a σ, (a, σ).
#[global] Instance M_bind : MBind M :=
  λ A B f m σ, match m σ with (a, σ') => f a σ' end.

(** [{...}]: a new dict object with the content [d]. *)
Definition new_dict (d : dict) : M loc := λ σ,
  (next_loc σ,
   {| heap := <[next_loc σ := d]> (heap σ);
      next_loc := S (next_loc σ);
      fwid_ctr := fwid_ctr σ |}).

(** The content of the dict object at [l]. *)
Definition deref (σ : state) (l : loc) : dict := default ∅ (heap σ !! l).

Definition read_dict (l : loc) : M dict := λ σ, (deref σ l, σ).

(** [dict(d)], [d.copy()] *)
Definition dict_copy (l : loc) : M loc :=
  d ← read_dict l; new_dict d.

(** An update in place of the dict object at [l]. *)
Definition modify_dict (f : dict → dict) (l : loc) : M unit := λ σ,
  (tt,
   {| heap := alter f l (heap σ);
      next_loc := next_loc σ;
      fwid_ctr := fwid_ctr σ |}).

(** [d[k] = v] *)
Definition setitem (l : loc) (k : string) (v : val) : M unit :=
  modify_dict (<[k := v]>) l.

(** [if d is None: d = {}] for an argument that is a dict or [None]. *)
Definition default_dict (d : option loc) : M loc :=
  match d with
  | Some l => mret l
  | None => new_dict ∅
  end.

(** [if v is None: v = {}] for an argument that is any object. *)
Definition default_obj (v : val) : M val :=
  match v with
  | VNone => l ← new_dict ∅; mret (VRef l)
  | _ => mret v
  end.

(** *** The constructors of FireWorks *)

(** Modelled from the spec: the classes [Firework] and [Workflow] belong to
    FireWorks and are not part of the sources.  A container gets a generated
    id: [NEGATIVE_FWID_CTR -= 1; self.fw_id = NEGATIVE_FWID_CTR]. *)
Definition next_fw_id : M Z := λ σ,
  let c := (fwid_ctr σ - 1)%Z in
  (c, {| heap := heap σ; next_loc := next_loc σ; fwid_ctr := c |}).

(** [name or 'Unnamed FW'] *)
Definition name_or (name : option string) (dflt : string) : string :=
  match name with
  | Some n => if String.eqb n "" then dflt else n
  | None => dflt
  end.

(** Modelled from the spec: [Firework(tasks, spec=spec, name=name)].  The
    specification is copied, not aliased, when a container is constructed:
    the container holds [spec.copy()] and nothing more. *)
Definition new_Firework
    (tasks : list Task) (spec : loc) (name : option string)
  : M (Firework loc) :=
  own_spec ← dict_copy spec;
  id ← next_fw_id;
  mret {| tasks := tasks; spec := own_spec;
          name := name_or name "Unnamed FW"; fw_id := id;
          launches := []; archived_launches := [] |}.

(** Modelled from the spec: [Workflow(fireworks, links_dict,
    metadata=metadata)].  The graph owns the containers and a precedence
    relation from a container to its successors, both keyed by container id;
    a container that is no key of [links_dict] gets an empty list of
    successors. *)
Definition new_Workflow (fireworks : list (Firework loc))
    (links_dict : list (Firework loc * list (Firework loc)))
    (metadata : dict) : Workflow loc :=
  let given : list (Z * list Z) :=
    map (λ l : Firework loc * list (Firework loc),
           (fw_id l.1, map fw_id l.2)) links_dict in
  let missing : list (Firework loc) :=
    filter (λ fw : Firework loc, fw_id fw ∉ map fst given) fireworks in
  {| id_fw := map (λ fw : Firework loc, (fw_id fw, fw)) fireworks;
     links := given ++ map (λ fw : Firework loc, (fw_id fw, [])) missing;
     wf_name := "unnamed WF";
     metadata := metadata |}.

(** *** [fw_utils.append_fw_to_wf] *)

(** The ids of the containers without successor. *)
Definition leaf_fw_ids {S} (wf : Workflow S) : list Z :=
  map fst (filter (λ l : Z * list Z, l.2 = []) (links wf)).

(** Modelled from the spec: [append_fw_to_wf] of [abiflows.fireworks.utils.fw_utils]
    is not part of the sources at hand.  It inserts the new container as
    terminal container and makes the previous terminal containers its
    predecessors. *)
Definition append_fw_to_wf {S} (new_fw : Firework S) (wf : Workflow S)
  : Workflow S :=
  let leaves := leaf_fw_ids wf in
  {| id_fw := id_fw wf ++ [(fw_id new_fw, new_fw)];
     links :=
       map (λ l : Z * list Z,
              if decide (l.1 ∈ leaves) then (l.1, l.2 ++ [fw_id new_fw]) else l)
           (links wf)
       ++ [(fw_id new_fw, [])];
     wf_name := wf_name wf;
     metadata := metadata wf |}.

(** [a] precedes [b] directly. *)
Definition edge {S} (wf : Workflow S) (a b : Z) : Prop :=
  ∃ cs, (a, cs) ∈ links wf ∧ b ∈ cs.

(** No container precedes itself, directly or through a chain of links. *)
Definition acyclic {S} (wf : Workflow S) : Prop :=
  ∀ a, ¬ tc (edge wf) a a.

(** ** The workflow builders *)

Module AbstractFWWorkflow.

(** [set_short_single_core_to_spec(spec=None)] *)
Definition set_short_single_core_to_spec `{Collaborators} (spec : option loc)
  : M loc :=
  spec ← default_dict spec;
  spec ← dict_copy spec;
  let qadapter_spec := get_short_single_core_spec in
  _ ← setitem spec "mpi_ncpus" (VInt 1);
  _ ← setitem spec "_queueadapter" qadapter_spec;
  mret spec.

(** [append_fw(fw, short_single_spec=False)]; [fw.spec.update(d)] overwrites
    the entries of [fw.spec] with those of [d]. *)
Definition append_fw `{Collaborators} (fw : Firework loc)
    (short_single_spec : bool) (wf : Workflow loc) : M (Workflow loc) :=
  _ ← (if short_single_spec then
         s ← set_short_single_core_to_spec None;
         d ← read_dict s;
         modify_dict (λ own, d ∪ own) (spec fw)
       else mret tt);
  mret (append_fw_to_wf fw wf).

(** [add_anaddb_task(structure)] *)
Definition add_anaddb_task `{Collaborators} (structure : val)
    (wf : Workflow loc) : M (Workflow loc) :=
  spec ← set_short_single_core_to_spec None;
  let anaddb_task :=
    mkTask AnaDdbTask [piezo_elastic structure] [] NoDeps None in
  anaddb_fw ← new_Firework [anaddb_task] spec (Some "anaddb");
  mret (append_fw_to_wf anaddb_fw wf).

(** [d.update(e)] on dicts that are only read afterwards. *)
Definition dict_update (d e : dict) : dict := e ∪ d.

(** [add_metadata(structure=None, additional_metadata=None)]; [class_name]
    is [self.__class__.__name__].  A structure is true when it has a site. *)
Definition add_metadata {S} (class_name : string)
    (structure : option Structure) (additional_metadata : option dict)
    (wf : Workflow S) : Workflow S :=
  let additional_metadata := default ∅ additional_metadata in
  let md : dict := <["wf_type" := VStr class_name]> ∅ in
  let md :=
    match structure with
    | Some st =>
        if (0 <? num_sites st)%nat then
          <["reduced_formula" := VStr (reduced_formula st)]>
            (<["elements" := VList (VStr <$> element_symbols st)]>
               (<["nsites" := VInt (Z.of_nat (num_sites st))]> md))
        else md
    | None => md
    end in
  let md := dict_update md additional_metadata in
  {| id_fw := id_fw wf; links := links wf; wf_name := wf_name wf;
     metadata := dict_update (metadata wf) md |}.

(** [add_final_cleanup(out_exts=None)] *)
Definition add_final_cleanup `{Collaborators}
    (out_exts : option (list string)) (wf : Workflow loc)
  : M (Workflow loc) :=
  let out_exts := default ["WFK"] out_exts in
  spec ← set_short_single_core_to_spec None;
  _ ← setitem spec "_priority" (VInt 100);
  let task :=
    mkTask FinalCleanUpTask [] [("out_exts", VList (VStr <$> out_exts))]
      NoDeps None in
  cleanup_fw ← new_Firework [task] spec
                 (Some (str_prefix 15 (wf_name wf +:+ "_cleanup")));
  mret (append_fw_to_wf cleanup_fw wf).

(** [add_db_insert_and_cleanup(mongo_database, out_exts=None,
    insertion_data=None, criteria=None)] *)
Definition add_db_insert_and_cleanup `{Collaborators} `{AuxCollaborators}
    (mongo_database : val) (out_exts : option (list string))
    (insertion_data : option loc) (criteria : val) (wf : Workflow loc)
  : M (Workflow loc) :=
  let out_exts := default ["WFK"] out_exts in
  insertion_data ←
    match insertion_data with
    | Some l => mret l
    | None =>
        new_dict (<["structure" := VStr "get_final_structure_and_history"]> ∅)
    end;
  spec ← set_short_single_core_to_spec None;
  _ ← setitem spec "mongo_database" (mongo_as_dict mongo_database);
  let insert_task :=
    mkTask DatabaseInsertTask []
      [("insertion_data", VRef insertion_data); ("criteria", criteria)]
      NoDeps None in
  let cleanup_task :=
    mkTask FinalCleanUpTask [] [("out_exts", VList (VStr <$> out_exts))]
      NoDeps None in
  insert_and_cleanup_fw ←
    new_Firework [insert_task; cleanup_task] spec
      (Some (str_prefix 15 (wf_name wf +:+ "_insclnup")));
  mret (append_fw_to_wf insert_and_cleanup_fw wf).

(** [get_reduced_formula(input)], for an input on which the lookup of the
    structure does not raise. *)
Definition get_reduced_formula `{Collaborators} (input : val) : string :=
  match input_structure input with
  | Some st => if (0 <? num_sites st)%nat then reduced_formula st else ""
  | None => ""
  end.

End AbstractFWWorkflow.

Import AbstractFWWorkflow.

(** [str(start_task_index)]: the index is the integer 1, or the string
    ['autoparal'] when the dry run is requested. *)
Definition start_task_index (autoparal : bool) : string :=
  if autoparal then "autoparal" else "1".

Definition autoparal_kw (autoparal : bool) : list (string * val) :=
  [("is_autoparal", VBool autoparal)].

Module InputFWWorkflow.
Definition init `{Collaborators} (abiinput : val) (task_type : TaskClass)
    (autoparal : bool) (spec : option loc) (initialization_info : val)
  : M (Workflow loc) :=
  let abitask :=
    mkTask task_type [abiinput] (autoparal_kw autoparal) NoDeps None in
  spec ← default_dict spec;
  initialization_info ← default_obj initialization_info;
  spec ← dict_copy spec;
  _ ← setitem spec "initialization_info" initialization_info;
  spec ← (if autoparal then set_short_single_core_to_spec (Some spec)
          else mret spec);
  fw ← new_Firework [abitask] spec None;
  mret (new_Workflow [fw] [] ∅).
End InputFWWorkflow.

Module ScfFWWorkflow.
Definition init `{Collaborators} (abiinput : val)
    (autoparal : bool) (spec : option loc) (initialization_info : val)
  : M (Workflow loc) :=
  let abitask :=
    mkTask ScfFWTask [abiinput] (autoparal_kw autoparal) NoDeps None in
  spec ← default_dict spec;
  initialization_info ← default_obj initialization_info;
  spec ← dict_copy spec;
  _ ← setitem spec "initialization_info" initialization_info;
  spec ← (if autoparal then set_short_single_core_to_spec (Some spec)
          else mret spec);
  scf_fw ← new_Firework [abitask] spec None;
  mret (new_Workflow [scf_fw] [] ∅).

(** [from_factory(structure, pseudos, ..., decorators=None, autoparal=False,
    spec=None)]: the loop calls each decorator on [abiinput] and drops what the
    call returns. *)
Definition from_factory `{Collaborators} (structure pseudos : val)
    (options : FactoryOptions) (extra_abivars : option loc)
    (decorators : option (list Decorator)) (autoparal : bool)
    (spec : option loc) : M (Workflow loc) :=
  extra_abivars ← default_dict extra_abivars;
  let decorators := default [] decorators in
  spec ← default_dict spec;
  let abiinput := scf_input structure pseudos options in
  vars ← read_dict extra_abivars;
  let abiinput := set_vars abiinput vars in
  let abiinput := foldl (λ inp d, dec_inplace d inp) abiinput decorators in
  init abiinput autoparal (Some spec) VNone.
End ScfFWWorkflow.

Module RelaxFWWorkflow.
Definition workflow_class : string := "RelaxFWWorkflow".
Definition workflow_module : string :=
  "abiflows.fireworks.workflows.abinit_workflows".

(** [if target_dilatmx:] for an argument that is a float or [None]. *)
Definition dilatmx_requested (target_dilatmx : option float) : bool :=
  match target_dilatmx with
  | Some f => negb (PrimFloat.eqb f 0%float)
  | None => false
  end.

Definition init `{Collaborators} (ion_input ioncell_input : val)
    (autoparal : bool) (spec : option loc) (initialization_info : val)
    (target_dilatmx : option float) : M (Workflow loc) :=
  spec ← default_dict spec;
  initialization_info ← default_obj initialization_info;
  spec ← dict_copy spec;
  _ ← setitem spec "initialization_info" initialization_info;
  spec ← (if autoparal then set_short_single_core_to_spec (Some spec)
          else mret spec);
  _ ← setitem spec "wf_task_index"
        (VStr ("ion_" +:+ start_task_index autoparal));
  let ion_task :=
    mkTask RelaxFWTask [ion_input] (autoparal_kw autoparal) NoDeps None in
  ion_fw ← new_Firework [ion_task] spec None;
  _ ← setitem spec "wf_task_index"
        (VStr ("ioncell_" +:+ start_task_index autoparal));
  let ioncell_task :=
    if dilatmx_requested target_dilatmx then
      mkTask RelaxDilatmxFWTask [ioncell_input]
        (autoparal_kw autoparal
           ++ [("target_dilatmx", from_option VFloat VNone target_dilatmx)])
        NoDeps None
    else
      mkTask RelaxFWTask [ioncell_input] (autoparal_kw autoparal) NoDeps None in
  ioncell_fw ← new_Firework [ioncell_task] spec None;
  mret (new_Workflow [ion_fw; ioncell_fw] [(ion_fw, [ioncell_fw])]
          (<["workflow_class" := VStr workflow_class]>
             (<["workflow_module" := VStr workflow_module]> ∅))).

(** The two assertions that open both queries. *)
Definition check_metadata (wf : Workflow dict) : result unit :=
  c ← getitem (metadata wf) "workflow_class";
  _ ← py_assert (val_eq_str c workflow_class);
  m ← getitem (metadata wf) "workflow_module";
  py_assert (val_eq_str m workflow_module).

(** One iteration of the loop of [get_final_structure_and_history]; the
    state is [(ioncell, final_fw_id)]. *)
Definition ioncell_scan_step (st : Z * option Z) (item : Z * Firework dict)
  : result (Z * option Z) :=
  let '(fw_id, fw) := item in
  match spec fw !! "wf_task_index" with
  | None => Ok st
  | Some (VStr s) =>
      if String.eqb (str_prefix 8 s) "ioncell_" then
        match py_int (str_split_last "_" s) with
        | None => Ok st               (* except ValueError: continue *)
        | Some this_ioncell =>
            if (this_ioncell >? st.1)%Z then Ok (this_ioncell, Some fw_id)
            else Ok st
        end
      else Ok st
  | Some (VList _) => Ok st           (* a list slice is never a string *)
  | Some _ => Raise (TypeError "object is not subscriptable")
  end.

Definition ioncell_scan (wf : Workflow dict) : result (Z * option Z) :=
  for_each ioncell_scan_step ((-1)%Z, None) (id_fw wf).

Section Extraction.
Context `{Collaborators}.

(** What follows the scan once [myfw] is found. *)
Definition extract_structure_and_history (myfw : Firework dict)
  : result dict :=
  last_launch ← list_last (archived_launches myfw ++ launches myfw);
  task ← list_last (tasks myfw);
  let task := set_workdir task (launch_dir last_launch) in
  structure ← get_final_structure task;
  history ← loadfn (path_join (launch_dir last_launch) "history.json");
  structure_dict ← as_dict structure;
  Ok (<["structure" := structure_dict]> (<["history" := history]> ∅)).

Definition get_final_structure_and_history (wf : Workflow dict)
  : result dict :=
  _ ← check_metadata wf;
  st ← ioncell_scan wf;
  match st.2 with
  | None => Raise (RuntimeError "Final strucure not found ...")
  | Some final_fw_id =>
      myfw ← assoc_get (id_fw wf) final_fw_id;
      extract_structure_and_history myfw
  end.

End Extraction.

(** One iteration of the loop of [get_runtime_secs]. *)
Definition runtime_step (time_secs : float) (item : Z * Firework dict)
  : result float :=
  let '(_, fw) := item in
  match spec fw !! "wf_task_index" with
  | None => Ok time_secs
  | Some (VStr s) =>
      if String.eqb (str_suffix 9 s) "autoparal" then
        l ← list_last (launches fw);
        runtime_add time_secs (runtime_secs l)
      else if String.eqb (str_prefix 4 s) "ion_" then
        l ← list_last (launches fw);
        n ← getitem (spec fw) "mpi_ncpus";
        x ← runtime_mul (runtime_secs l) n;
        runtime_add time_secs (Some x)
      else if String.eqb (str_prefix 8 s) "ioncell_" then
        l ← list_last (launches fw);
        n ← getitem (spec fw) "mpi_ncpus";
        x ← runtime_mul (runtime_secs l) n;
        runtime_add time_secs (Some x)
      else Ok time_secs
  | Some (VList _) => Ok time_secs
  | Some _ => Raise (TypeError "object is not subscriptable")
  end.

Definition get_runtime_secs (wf : Workflow dict) : result float :=
  _ ← check_metadata wf;
  for_each runtime_step 0%float (id_fw wf).

(** [from_factory(structure, pseudos, ..., decorators=None, autoparal=False,
    spec=None, initialization_info=None, target_dilatmx=None)]: the loop
    rebinds [ion_input] to what each decorator returns. *)
Definition from_factory `{Collaborators} (structure pseudos : val)
    (options : FactoryOptions) (extra_abivars : option loc)
    (decorators : option (list Decorator)) (autoparal : bool)
    (spec : option loc) (initialization_info : val)
    (target_dilatmx : option float) : M (Workflow loc) :=
  extra_abivars ← default_dict extra_abivars;
  let decorators := default [] decorators in
  spec ← default_dict spec;
  initialization_info ← default_obj initialization_info;
  let ion_input := (ion_ioncell_relax_input structure pseudos options).1 in
  vars ← read_dict extra_abivars;
  let ion_input := set_vars ion_input vars in
  let ion_input := foldl (λ inp d, dec_return d inp) ion_input decorators in
  let ioncell_fact :=
    IoncellRelaxFromGsFactory (accuracy options) vars decorators in
  init ion_input ioncell_fact autoparal (Some spec) initialization_info
    target_dilatmx.

End RelaxFWWorkflow.

(** The module defines [NscfFWWorkflow] twice.  This is the first definition;
    the second one below replaces it when the module is loaded. *)
Module NscfFWWorkflow_first.
Definition init `{Collaborators} (scf_input nscf_input : val)
    (autoparal : bool) (spec : option loc) (initialization_info : val)
  : M (Workflow loc) :=
  spec ← default_dict spec;
  initialization_info ← default_obj initialization_info;
  spec ← dict_copy spec;
  _ ← setitem spec "initialization_info" initialization_info;
  spec ← (if autoparal then set_short_single_core_to_spec (Some spec)
          else mret spec);
  let ion_task :=
    mkTask ScfFWTask [scf_input] (autoparal_kw autoparal) NoDeps None in
  ion_fw ← new_Firework [ion_task] spec None;
  let ioncell_task :=
    mkTask NscfFWTask [nscf_input] (autoparal_kw autoparal)
      (DepsMap [(task_type ScfFWTask, "DEN")]) None in
  ioncell_fw ← new_Firework [ioncell_task] spec None;
  mret (new_Workflow [ion_fw; ioncell_fw] [(ion_fw, [ioncell_fw])] ∅).
End NscfFWWorkflow_first.

Module HybridOneShotFWWorkflow.
Definition init `{Collaborators} (scf_inp hybrid_input : val)
    (autoparal : bool) (spec : option loc) (initialization_info : val)
  : M (Workflow loc) :=
  let rf := get_reduced_formula scf_inp in
  let scf_task :=
    mkTask ScfFWTask [scf_inp] (autoparal_kw autoparal) NoDeps None in
  spec ← default_dict spec;
  initialization_info ← default_obj initialization_info;
  spec ← dict_copy spec;
  _ ← setitem spec "initialization_info" initialization_info;
  spec ← (if autoparal then set_short_single_core_to_spec (Some spec)
          else mret spec);
  scf_fw ← new_Firework [scf_task] spec
             (Some (rf +:+ "_" +:+ task_type ScfFWTask));
  let hybrid_task :=
    mkTask HybridFWTask [hybrid_input] (autoparal_kw autoparal)
      (DepsList ["WFK"]) None in
  hybrid_fw ← new_Firework [hybrid_task] spec
                (Some (rf +:+ "_" +:+ task_type HybridFWTask));
  mret (new_Workflow [scf_fw; hybrid_fw] [(scf_fw, [hybrid_fw])] ∅).
End HybridOneShotFWWorkflow.

(** The second, effective definition of [NscfFWWorkflow]: it takes no
    [initialization_info]. *)
Module NscfFWWorkflow.
Definition init `{Collaborators} (scf_input nscf_input : val)
    (autoparal : bool) (spec : option loc) : M (Workflow loc) :=
  spec ← default_dict spec;
  spec ← dict_copy spec;
  spec ← (if autoparal then set_short_single_core_to_spec (Some spec)
          else mret spec);
  let ion_task :=
    mkTask ScfFWTask [scf_input] (autoparal_kw autoparal) NoDeps None in
  ion_fw ← new_Firework [ion_task] spec None;
  let ioncell_task :=
    mkTask NscfFWTask [nscf_input] (autoparal_kw autoparal)
      (DepsMap [(task_type ScfFWTask, "DEN")]) None in
  ioncell_fw ← new_Firework [ioncell_task] spec None;
  mret (new_Workflow [ion_fw; ioncell_fw] [(ion_fw, [ioncell_fw])] ∅).
End NscfFWWorkflow.

Module PhononFWWorkflow.
Definition workflow_class : string := "PhononFWWorkflow".
Definition workflow_module : string := "abipy.fworks.fw_workflows".

Definition init `{Collaborators} (scf_inp phonon_factory : val)
    (autoparal : bool) (spec : option loc) (initialization_info : val)
  : M (Workflow loc) :=
  let rf := get_reduced_formula scf_inp in
  let scf_task :=
    mkTask ScfFWTask [scf_inp] (autoparal_kw autoparal) NoDeps None in
  spec ← default_dict spec;
  initialization_info ← default_obj initialization_info;
  spec ← dict_copy spec;
  _ ← setitem spec "initialization_info" initialization_info;
  spec ← (if autoparal then set_short_single_core_to_spec (Some spec)
          else mret spec);
  _ ← setitem spec "wf_task_index"
        (VStr ("scf_" +:+ start_task_index autoparal));
  scf_fw ← new_Firework [scf_task] spec
             (Some (rf +:+ "_" +:+ task_type ScfFWTask));
  let ph_generation_task :=
    mkTask GeneratePhononFlowFWTask [phonon_factory]
      [("previous_task_type", VStr (task_type ScfFWTask));
       ("with_autoparal", VBool autoparal)] NoDeps None in
  _ ← setitem spec "wf_task_index" (VStr "gen_ph");
  ph_generation_fw ← new_Firework [ph_generation_task] spec
                       (Some (rf +:+ "_gen_ph"));
  mret (new_Workflow [scf_fw; ph_generation_fw]
          [(scf_fw, [ph_generation_fw])]
          (<["workflow_class" := VStr workflow_class]>
             (<["workflow_module" := VStr workflow_module]> ∅))).

(** The literal [1.e-22], that is, the binary64 number closest to it. *)
Definition default_tolwfr : float := 0x1.e392010175ee6p-74%float.

(** [if scf_tol] for an argument that is a float or [None]. *)
Definition tolerance_given (tol : option float) : bool :=
  match tol with
  | Some f => negb (PrimFloat.eqb f 0%float)
  | None => false
  end.

(** [from_factory(structure, pseudos, ..., scf_tol=None, ...,
    extra_abivars=None, decorators=None, autoparal=False, spec=None,
    initialization_info=None)] *)
Definition from_factory `{Collaborators} `{AuxCollaborators}
    (structure pseudos : val) (options : FactoryOptions)
    (ph_options : PhononOptions) (scf_tol : option float)
    (extra_abivars : option loc) (decorators : option (list Decorator))
    (autoparal : bool) (spec : option loc) (initialization_info : val)
  : M (Workflow loc) :=
  extra_abivars ← default_dict extra_abivars;
  let decorators := default [] decorators in
  spec ← default_dict spec;
  initialization_info ← default_obj initialization_info;
  extra_abivars_scf ← dict_copy extra_abivars;
  _ ← setitem extra_abivars_scf "tolwfr"
        (VFloat (if tolerance_given scf_tol
                 then default 0%float scf_tol else default_tolwfr));
  let scf_fact :=
    ScfForPhononsFactory structure pseudos options extra_abivars_scf
      decorators in
  let phonon_fact :=
    PhononsFromGsFactory ph_options extra_abivars decorators in
  init scf_fact phonon_fact autoparal (Some spec) initialization_info.
End PhononFWWorkflow.

Module PiezoElasticFWWorkflow.
Definition workflow_class : string := "PiezoElasticFWWorkflow".
Definition workflow_module : string :=
  "abiflows.fireworks.workflows.abinit_workflows".

Definition init `{Collaborators} (scf_inp ddk_inp rf_inp : val)
    (autoparal : bool) (spec : option loc) (initialization_info : val)
  : M (Workflow loc) :=
  let rf := get_reduced_formula scf_inp in
  let scf_task :=
    mkTask ScfFWTask [scf_inp] (autoparal_kw autoparal) NoDeps None in
  spec ← default_dict spec;
  initialization_info ← default_obj initialization_info;
  spec ← dict_copy spec;
  _ ← setitem spec "initialization_info" initialization_info;
  spec ← (if autoparal then set_short_single_core_to_spec (Some spec)
          else mret spec);
  scf_fw ← new_Firework [scf_task] spec
             (Some (rf +:+ "_" +:+ task_type ScfFWTask));
  let ddk_task :=
    mkTask DdkTask [ddk_inp] (autoparal_kw autoparal)
      (DepsMap [(task_type ScfFWTask, "WFK")]) None in
  let ddk_fw_name := rf +:+ task_type DdkTask in
  let ddk_fw_name := str_prefix 8 ddk_fw_name in
  ddk_fw ← new_Firework [ddk_task] spec (Some ddk_fw_name);
  let rf_task :=
    mkTask StrainPertTask [rf_inp] (autoparal_kw autoparal)
      (DepsMap [(task_type ScfFWTask, "WFK"); (task_type DdkTask, "DDK")])
      None in
  let rf_fw_name := rf +:+ task_type StrainPertTask in
  let rf_fw_name := str_prefix 8 rf_fw_name in
  rf_fw ← new_Firework [rf_task] spec (Some rf_fw_name);
  let wf :=
    new_Workflow [scf_fw; ddk_fw; rf_fw]
      [(scf_fw, [ddk_fw]); (ddk_fw, [rf_fw])]
      (<["workflow_class" := VStr workflow_class]>
         (<["workflow_module" := VStr workflow_module]> ∅)) in
  add_anaddb_task (structure_attr scf_inp) wf.

(** [NotImplemented] is the constant returned by binary special methods, not
    the exception class [NotImplementedError]; it cannot be called. *)
Inductive builtin := NotImplemented | NotImplementedError_class.

(** [b(msg)]: the exception object built by calling [b]. *)
Definition call_builtin (b : builtin) (msg : string) : result exn :=
  match b with
  | NotImplemented =>
      Raise (TypeError "'NotImplementedType' object is not callable")
  | NotImplementedError_class => Ok (NotImplementedError msg)
  end.

(** [from_factory()]: the operand of [raise] is evaluated first. *)
Definition from_factory : result (Workflow loc) :=
  e ← call_builtin NotImplemented
        "from factory method not yet implemented for piezoelasticworkflow";
  Raise e.

(** [add_mrgddb_task(structure)] *)
Definition add_mrgddb_task `{Collaborators} (structure : val)
    (wf : Workflow loc) : M (Workflow loc) :=
  spec ← set_short_single_core_to_spec None;
  _ ← setitem spec "ddb_files_task_types"
        (VList [VStr "scf"; VStr "strain_pert"]);
  let mrgddb_task := mkTask MergeDdbTask [] [] NoDeps None in
  mrgddb_fw ← new_Firework [mrgddb_task] spec (Some "mrgddb");
  mret (append_fw_to_wf mrgddb_fw wf).

(** The two assertions that open the queries. *)
Definition check_metadata (wf : Workflow dict) : result unit :=
  c ← getitem (metadata wf) "workflow_class";
  _ ← py_assert (val_eq_str c workflow_class);
  m ← getitem (metadata wf) "workflow_module";
  py_assert (val_eq_str m workflow_module).

(** The loop of the queries: [final_fw_id] is the id of the container named
    ['anaddb'] that comes last. *)
Definition anaddb_scan (wf : Workflow dict) : option Z :=
  foldl (λ final_fw_id item,
           if String.eqb (name item.2) "anaddb" then Some item.1
           else final_fw_id) None (id_fw wf).

Section Extraction.
Context `{Collaborators} `{AuxCollaborators}.

(** [get_elastic_tensor_and_history(wf)] *)
Definition get_elastic_tensor_and_history (wf : Workflow dict)
  : result dict :=
  _ ← check_metadata wf;
  match anaddb_scan wf with
  | None => Raise (RuntimeError "Final anaddb task not found ...")
  | Some final_fw_id =>
      myfw ← assoc_get (id_fw wf) final_fw_id;
      last_launch ← list_last (archived_launches myfw ++ launches myfw);
      task ← list_last (tasks myfw);
      let task := set_workdir task (launch_dir last_launch) in
      elastic_tensor ← get_elastic_tensor task;
      history ← loadfn (path_join (launch_dir last_launch) "history.json");
      properties ← extended_dict elastic_tensor;
      Ok (<["elastic_properties" := properties]> (<["history" := history]> ∅))
  end.

(** [get_all_elastic_tensors(wf)] *)
Definition get_all_elastic_tensors (wf : Workflow dict) : result dict :=
  _ ← check_metadata wf;
  match anaddb_scan wf with
  | None => Raise (RuntimeError "Final anaddb task not found ...")
  | Some final_fw_id =>
      myfw ← assoc_get (id_fw wf) final_fw_id;
      last_launch ← list_last (archived_launches myfw ++ launches myfw);
      task ← list_last (tasks myfw);
      let task := set_workdir task (launch_dir last_launch) in
      elastic_tensor ← get_elastic_tensor task;
      history ← loadfn (path_join (launch_dir last_launch) "history.json");
      properties ← extended_dict elastic_tensor;
      Ok (<["elastic_properties" := properties]> (<["history" := history]> ∅))
  end.

End Extraction.
End PiezoElasticFWWorkflow.

(** ** Every builder

    A call of the constructor of one of the builder classes that the module
    exports, with its arguments. *)
Inductive builder_call :=
| CallInputFW (abiinput : val) (task_type : TaskClass) (autoparal : bool)
    (spec : option loc) (initialization_info : val)
| CallScfFW (abiinput : val) (autoparal : bool)
    (spec : option loc) (initialization_info : val)
| CallRelaxFW (ion_input ioncell_input : val) (autoparal : bool)
    (spec : option loc) (initialization_info : val)
    (target_dilatmx : option float)
| CallNscfFW (scf_input nscf_input : val) (autoparal : bool)
    (spec : option loc)
| CallHybridOneShotFW (scf_inp hybrid_input : val) (autoparal : bool)
    (spec : option loc) (initialization_info : val)
| CallPhononFW (scf_inp phonon_factory : val) (autoparal : bool)
    (spec : option loc) (initialization_info : val)
| CallPiezoElasticFW (scf_inp ddk_inp rf_inp : val) (autoparal : bool)
    (spec : option loc) (initialization_info : val).

Definition build `{Collaborators} (c : builder_call) : M (Workflow loc) :=
  match c with
  | CallInputFW i t a s ii => InputFWWorkflow.init i t a s ii
  | CallScfFW i a s ii => ScfFWWorkflow.init i a s ii
  | CallRelaxFW i j a s ii d => RelaxFWWorkflow.init i j a s ii d
  | CallNscfFW i j a s => NscfFWWorkflow.init i j a s
  | CallHybridOneShotFW i j a s ii => HybridOneShotFWWorkflow.init i j a s ii
  | CallPhononFW i j a s ii => PhononFWWorkflow.init i j a s ii
  | CallPiezoElasticFW i j k a s ii => PiezoElasticFWWorkflow.init i j k a s ii
  end.

Definition call_autoparal (c : builder_call) : bool :=
  match c with
  | CallInputFW _ _ a _ _ | CallScfFW _ a _ _ | CallRelaxFW _ _ a _ _ _
  | CallNscfFW _ _ a _ | CallHybridOneShotFW _ _ a _ _
  | CallPhononFW _ _ a _ _ | CallPiezoElasticFW _ _ _ a _ _ => a
  end.

Definition call_spec (c : builder_call) : option loc :=
  match c with
  | CallInputFW _ _ _ s _ | CallScfFW _ _ s _ | CallRelaxFW _ _ _ s _ _
  | CallNscfFW _ _ _ s | CallHybridOneShotFW _ _ _ s _
  | CallPhononFW _ _ _ s _ | CallPiezoElasticFW _ _ _ _ s _ => s
  end.

(** The [initialization_info] argument, for the constructors that have one. *)
Definition call_initialization_info (c : builder_call) : option val :=
  match c with
  | CallInputFW _ _ _ _ ii | CallScfFW _ _ _ ii | CallRelaxFW _ _ _ _ ii _
  | CallHybridOneShotFW _ _ _ _ ii
  | CallPhononFW _ _ _ _ ii | CallPiezoElasticFW _ _ _ _ _ ii => Some ii
  | CallNscfFW _ _ _ _ => None
  end.

(** A concrete set of collaborators, to run the builders and queries on
    examples. *)
Definition example_collaborators : Collaborators :=
  {| scf_input := λ _ _ _, VStr "scf_input";
     ion_ioncell_relax_input := λ _ _ _, (VStr "ion_input", VStr "ioncell_input");
     set_vars := λ inp _, inp;
     IoncellRelaxFromGsFactory := λ _ _ _, VStr "ioncell_factory";
     get_short_single_core_spec := VStr "short_single_core";
     task_type := λ c,
       match c with
       | ScfFWTask => "scf" | RelaxFWTask => "relax" | NscfFWTask => "nscf"
       | HybridFWTask => "hybrid" | DdkTask => "ddk"
       | StrainPertTask => "strain_pert" | AnaDdbTask => "anaddb"
       | _ => "abinit"
       end;
     input_structure := λ _, Some (mkStructure 2 ["Si"] "Si");
     structure_attr := λ _, VStr "structure";
     piezo_elastic := λ _, VStr "anaddb_input";
     get_final_structure := λ t,
       Ok (VStr ("structure in " +:+ default "" (task_workdir t)));
     as_dict := λ v, Ok v;
     loadfn := λ path, Ok (VStr ("content of " +:+ path)) |}.

Definition empty_state : state :=
  {| heap := ∅; next_loc := 0; fwid_ctr := 0 |}.

(** ** Reading a workflow graph

    The notions in which the properties of the queries are stated. *)


(** Both assertions of the queries of [RelaxFWWorkflow] hold. *)
Definition metadata_ok (wf : Workflow dict) : Prop :=
  metadata wf !! "workflow_class" = Some (VStr RelaxFWWorkflow.workflow_class)
  ∧ metadata wf !! "workflow_module"
    = Some (VStr RelaxFWWorkflow.workflow_module).

(** The stage index of a container can be sliced and compared with a string:
    it is absent, a string or a list. *)
Definition sliceable (item : Z * Firework dict) : bool :=
  match spec item.2 !! "wf_task_index" with
  | None | Some (VStr _) | Some (VList _) => true
  | Some _ => false
  end.

(** The number of the cell-relaxation stage that a container stands for: its
    stage index begins with ['ioncell_'] and the text after the last
    underscore is an integer. *)
Definition ioncell_index (fw : Firework dict) : option Z :=
  match spec fw !! "wf_task_index" with
  | Some (VStr s) =>
      if String.eqb (str_prefix 8 s) "ioncell_"
      then py_int (str_split_last "_" s) else None
  | _ => None
  end.

(** A container is tagged as an autoparal dry run when its stage index ends
    in ['autoparal'], and as a production stage when the index is ['ion_'] or
    ['ioncell_'] followed by an integer. *)
Definition autoparal_tagged (s : string) : bool :=
  String.eqb (str_suffix 9 s) "autoparal".


(** The runtime reported by the last launch of a container. *)
Definition last_runtime (fw : Firework dict) : option float :=
  l ← last (launches fw); runtime_secs l.




(** How [get_runtime_secs] bills a container: it adds nothing, it adds a
    time, or it cannot bill the container and raises. *)
Inductive billing :=
| NotBilled
| Billed (x : float)
| Unbillable.

(** The bill of a container.  A stage index that ends in ['autoparal'] is
    billed the runtime of the last active launch; any other stage index that
    begins with ['ion_'] or ['ioncell_'], whatever follows, is billed this
    runtime times ['mpi_ncpus'].  A container without stage index, or with
    another one, is not billed.  A container cannot be billed when what the
    bill needs is missing or of the wrong type. *)
Definition billing_of (fw : Firework dict) : billing :=
  match spec fw !! "wf_task_index" with
  | None | Some (VList _) => NotBilled
  | Some (VStr s) =>
      if autoparal_tagged s then
        match last_runtime fw with
        | Some r => Billed r
        | None => Unbillable
        end
      else if String.eqb (str_prefix 4 s) "ion_"
              || String.eqb (str_prefix 8 s) "ioncell_" then
        match last (launches fw), spec fw !! "mpi_ncpus" with
        | Some l, Some n =>
            match runtime_mul (runtime_secs l) n with
            | Ok x => Billed x
            | Raise _ => Unbillable
            end
        | _, _ => Unbillable
        end
      else NotBilled
  | Some _ => Unbillable
  end.

(** The container [item] with the entry ['mpi_ncpus'] set to [v]. *)
Definition with_cpus (v : val) (item : Z * Firework dict)
  : Z * Firework dict :=
  (item.1,
   {| tasks := tasks item.2; spec := <["mpi_ncpus" := v]> (spec item.2);
      name := name item.2; fw_id := fw_id item.2;
      launches := launches item.2;
      archived_launches := archived_launches item.2 |}).

Definition billable (item : Z * Firework dict) : bool :=
  match billing_of item.2 with
  | Unbillable => false
  | _ => true
  end.

(** The bills of the containers [l], added one after the other to [t]. *)
Definition billed_from (t : float) (l : list (Z * Firework dict)) : float :=
  foldl (λ acc item,
           match billing_of item.2 with
           | Billed x => PrimFloat.add acc x
           | _ => acc
           end) t l.

(** The graph of the accounting example: one autoparal container with a
    runtime of 10 seconds and one production container with a runtime of 20
    seconds on 4 cores. *)
Definition relax_metadata : dict :=
  <["workflow_class" := VStr RelaxFWWorkflow.workflow_class]>
    (<["workflow_module" := VStr RelaxFWWorkflow.workflow_module]> ∅).

Definition example_container (id : Z) (index : string) (ncpus : Z)
    (dir : string) (runtime : float) : Z * Firework dict :=
  (id,
   {| tasks := [mkTask RelaxFWTask [VStr "input"] [] NoDeps None];
      spec := <["wf_task_index" := VStr index]>
                (<["mpi_ncpus" := VInt ncpus]> ∅);
      name := "Unnamed FW"; fw_id := id;
      launches := [mkLaunch dir (Some runtime)];
      archived_launches := [] |}).



(** A dry run on 16 cores before a production stage on 4 cores. *)
Definition dry_run_example : Workflow dict :=
  {| id_fw := [example_container 1 "ion_1" 4 "/run/1" 20%float;
               example_container 4 "ioncell_autoparal" 16 "/run/4" 2%float;
               example_container 2 "ioncell_1" 4 "/run/2" 25%float];
     links := [(1, [4]); (4, [2]); (2, [])]%Z;
     wf_name := "unnamed WF";
     metadata := relax_metadata |}.

(** A relaxation whose cell-relaxation stage was restarted once: the last
    stage has an archived launch and an active one. *)
Definition restarted_container : Z * Firework dict :=
  (3%Z,
   {| tasks := [mkTask RelaxFWTask [VStr "input"] [] NoDeps None];
      spec := <["wf_task_index" := VStr "ioncell_2"]>
                (<["mpi_ncpus" := VInt 8]> ∅);
      name := "Unnamed FW"; fw_id := 3;
      launches := [mkLaunch "/run/3b" (Some 30%float)];
      archived_launches := [mkLaunch "/run/3a" (Some 5%float)] |}).

Definition relax_example : Workflow dict :=
  {| id_fw := [example_container 4 "ioncell_autoparal" 1 "/run/4" 2%float;
               restarted_container;
               example_container 1 "ion_1" 4 "/run/1" 20%float;
               example_container 2 "ioncell_1" 4 "/run/2" 25%float];
     links := [(1, [2]); (2, [4]); (4, [3]); (3, [])]%Z;
     wf_name := "unnamed WF";
     metadata := relax_metadata |}.

(** A graph whose only cell-relaxation container has a negative number. *)
Definition negative_index_example : Workflow dict :=
  {| id_fw := [example_container 1 "ioncell_-5" 4 "/run/1" 20%float];
     links := [(1, [])]%Z;
     wf_name := "unnamed WF";
     metadata := relax_metadata |}.

(** A graph without numbered cell-relaxation container. *)
Definition no_ioncell_example : Workflow dict :=
  {| id_fw := [example_container 1 "ion_1" 4 "/run/1" 20%float;
               example_container 2 "ioncell_autoparal" 1 "/run/2" 2%float];
     links := [(1, [2]); (2, [])]%Z;
     wf_name := "unnamed WF";
     metadata := relax_metadata |}.

(** What the scan for the last cell relaxation knows after the containers
    [seen]: no container seen has a larger number than the one kept, and the
    container kept, if any, has been seen. *)
Definition scan_inv (seen : list (Z * Firework dict)) (st : Z * option Z)
  : Prop :=
  (∀ item n, item ∈ seen → ioncell_index item.2 = Some n → (n ≤ st.1)%Z)
  ∧ match st.2 with
    | None => st.1 = (-1)%Z
    | Some id =>
        ∃ fw, (id, fw) ∈ seen ∧ ioncell_index fw = Some st.1 ∧ (-1 < st.1)%Z
    end.


(** The calculation input of the first task of the first container. *)
Definition first_input {S} (wf : Workflow S) : option val :=
  item ← head (id_fw wf); t ← head (tasks item.2); head (task_args t).

(** Two decorators in the manner of abipy: each leaves its argument as it is
    and returns a changed copy. *)
Definition mark (suffix : string) (v : val) : val :=
  match v with
  | VStr s => VStr (s +:+ suffix)
  | _ => v
  end.

Definition example_decorators : list Decorator :=
  [{| dec_inplace := λ v, v; dec_return := mark "+d1" |};
   {| dec_inplace := λ v, v; dec_return := mark "+d2" |}].

Definition example_options : FactoryOptions :=
  {| kppa := VNone; ecut := VNone; pawecutdg := VNone; nband := VNone;
     accuracy := VStr "normal"; spin_mode := VStr "polarized";
     smearing := VStr "fermi_dirac:0.1 eV"; charge := VFloat 0%float;
     scf_algorithm := VNone; shift_mode := VStr "Monkhorst-Pack" |}.

(** ** Reading a built workflow *)

(** The content of the caller's mapping when the constructor is called. *)
Definition caller_spec (c : builder_call) (σ : state) : dict :=
  match call_spec c with
  | Some l => deref σ l
  | None => ∅
  end.

(** The caller's mapping is an object of the store. *)
Definition allocated_call (c : builder_call) (σ : state) : Prop :=
  ∀ l, call_spec c = Some l → l < next_loc σ.

(** The number of containers that a constructor builds for the stages of its
    recipe; [PiezoElasticFWWorkflow] appends the post-processing container
    ['anaddb'] after them. *)
Definition stage_containers (c : builder_call) : nat :=
  match c with
  | CallInputFW _ _ _ _ _ | CallScfFW _ _ _ _ => 1
  | CallRelaxFW _ _ _ _ _ _ | CallNscfFW _ _ _ _
  | CallHybridOneShotFW _ _ _ _ _ | CallPhononFW _ _ _ _ _ => 2
  | CallPiezoElasticFW _ _ _ _ _ _ => 3
  end.

(** The stage index that a constructor writes for its [i]-th container. *)
Definition written_index (c : builder_call) (i : nat) : option string :=
  match c, i with
  | CallRelaxFW _ _ a _ _ _, 0 => Some ("ion_" +:+ start_task_index a)
  | CallRelaxFW _ _ a _ _ _, 1 => Some ("ioncell_" +:+ start_task_index a)
  | CallPhononFW _ _ a _ _, 0 => Some ("scf_" +:+ start_task_index a)
  | CallPhononFW _ _ a _ _, 1 => Some "gen_ph"
  | _, _ => None
  end.

(** The first lines that the constructors with an [initialization_info]
    share, as one computation: the default arguments, the copy of the
    caller's mapping, the [initialization_info] entry and the single-core
    profile. *)
Definition base_spec `{Collaborators} (autoparal : bool) (spec : option loc)
    (initialization_info : val) : M loc :=
  spec ← default_dict spec;
  initialization_info ← default_obj initialization_info;
  spec ← dict_copy spec;
  _ ← setitem spec "initialization_info" initialization_info;
  if autoparal then set_short_single_core_to_spec (Some spec) else mret spec.

(** The specification of a container. *)
Definition spec_of (σ : state) (fw : Firework loc) : dict := deref σ (spec fw).

(** The content that [base_spec] gives to the specification: the caller's
    entries [d], the [initialization_info] and, for a dry run, the
    single-core profile. *)
Definition base_content `{Collaborators} (autoparal : bool) (d : dict)
    (initialization_info : val) : dict :=
  let d := <["initialization_info" := initialization_info]> d in
  if autoparal then
    <["_queueadapter" := get_short_single_core_spec]>
      (<["mpi_ncpus" := VInt 1]> d)
  else d.

(** The value stored for an [initialization_info] argument [given]: the
    argument itself, or a reference to a new, empty mapping when the argument
    is [None]. *)
Definition stored_initialization_info (given stored : val) (σ σ' : state)
  : Prop :=
  match given with
  | VNone =>
      ∃ f, stored = VRef f ∧ next_loc σ ≤ f ∧ heap σ' !! f = Some ∅
  | _ => stored = given
  end.

(** What holds of the workflow [wf] and the store [σ'] that the call [c] of
    a constructor yields in the store [σ]. *)
Definition build_post `{Collaborators} (c : builder_call) (σ : state)
    (wf : Workflow loc) (σ' : state) : Prop :=
  next_loc σ ≤ next_loc σ'
  ∧ (∀ l, l < next_loc σ → heap σ' !! l = heap σ !! l)
  ∧ (∀ i item, id_fw wf !! i = Some item →
       item.1 = fw_id item.2
       ∧ fw_id item.2 = (fwid_ctr σ - 1 - Z.of_nat i)%Z
       ∧ next_loc σ ≤ spec item.2 ∧ spec item.2 < next_loc σ')
  ∧ (∀ i j x y, id_fw wf !! i = Some x → id_fw wf !! j = Some y →
       spec x.2 = spec y.2 → i = j)
  ∧ (∀ a b, edge wf a b → (b < a)%Z)
  ∧ (call_autoparal c = true →
     ∀ i item, id_fw wf !! i = Some item →
       spec_of σ' item.2 !! "mpi_ncpus" = Some (VInt 1)
       ∧ spec_of σ' item.2 !! "_queueadapter"
         = Some get_short_single_core_spec)
  ∧ (∀ given, call_initialization_info c = Some given →
       ∃ stored,
         stored_initialization_info given stored σ σ'
         ∧ ∀ i item, id_fw wf !! i = Some item → i < stage_containers c →
             spec_of σ' item.2 !! "initialization_info" = Some stored)
  ∧ (∀ i item, id_fw wf !! i = Some item → stage_containers c ≤ i →
       spec_of σ' item.2 !! "initialization_info" = None)
  ∧ (∀ i item s, id_fw wf !! i = Some item → written_index c i = Some s →
       spec_of σ' item.2 !! "wf_task_index" = Some (VStr s))
  ∧ (allocated_call c σ →
     ∀ i item, id_fw wf !! i = Some item → written_index c i = None →
       spec_of σ' item.2 !! "wf_task_index"
       = if decide (i < stage_containers c)
         then caller_spec c σ !! "wf_task_index" else None).

(** A store in which a caller holds two mappings: an execution
    specification at location 0 and an [initialization_info] at location 1. *)
Definition caller_state : state :=
  {| heap := <[0 := <["wf_task_index" := VStr "mine"]>
                      (<["mpi_ncpus" := VInt 16]> ∅)]>
               (<[1 := <["user" := VStr "me"]> ∅]> ∅);
     next_loc := 2;
     fwid_ctr := 0 |}.

(** ** Further notions for reading a workflow graph *)

(** The graph [wf] with the containers [l]. *)
Definition with_containers {S} (l : list (Z * Firework S)) (wf : Workflow S)
  : Workflow S :=
  {| id_fw := l; links := links wf; wf_name := wf_name wf;
     metadata := metadata wf |}.

(** A container that the accounting of compute time passes over: it has no
    stage index, or one that neither ends in ['autoparal'] nor begins with
    ['ion_'] or ['ioncell_']. *)
Definition uncounted (item : Z * Firework dict) : bool :=
  match spec item.2 !! "wf_task_index" with
  | None | Some (VList _) => true
  | Some (VStr s) =>
      negb (autoparal_tagged s || String.eqb (str_prefix 4 s) "ion_"
            || String.eqb (str_prefix 8 s) "ioncell_")
  | Some _ => false
  end.

(** A container of which only the specification and the last active launch
    are kept. *)
Definition bare_container (item : Z * Firework dict) : Z * Firework dict :=
  (0%Z,
   {| tasks := []; spec := spec item.2; name := ""; fw_id := 0;
      launches := option_list (last (launches item.2));
      archived_launches := [] |}).

(** Two cell relaxations with the same number. *)
Definition tie_example : Workflow dict :=
  {| id_fw := [example_container 1 "ion_1" 4 "/run/1" 20%float;
               example_container 7 "ioncell_2" 4 "/run/7" 25%float;
               example_container 5 "ioncell_2" 4 "/run/5" 26%float;
               example_container 2 "ioncell_1" 4 "/run/2" 27%float];
     links := [(1, [2]); (2, [7]); (7, [5]); (5, [])]%Z;
     wf_name := "unnamed WF";
     metadata := relax_metadata |}.

(** A relaxation whose first container has not been launched. *)
Definition unlaunched_example : Workflow dict :=
  {| id_fw := [example_container 4 "ion_autoparal" 1 "/run/4" 2%float;
               (1%Z,
                {| tasks := [mkTask RelaxFWTask [VStr "input"] [] NoDeps None];
                   spec := <["wf_task_index" := VStr "ion_1"]> ∅;
                   name := "Unnamed FW"; fw_id := 1;
                   launches := [];
                   archived_launches := [mkLaunch "/run/1" (Some 3%float)] |});
               example_container 2 "ioncell_1" 4 "/run/2" 25%float];
     links := [(4, [1]); (1, [2]); (2, [])]%Z;
     wf_name := "unnamed WF";
     metadata := relax_metadata |}.

(** A concrete set of the further collaborators. *)
Definition example_aux_collaborators : AuxCollaborators :=
  {| mongo_as_dict := λ v, VList [VStr "database"; v];
     get_elastic_tensor := λ t,
       Ok (VStr ("tensor in " +:+ default "" (task_workdir t)));
     extended_dict := λ v, Ok v;
     ScfForPhononsFactory := λ _ _ _ vars _,
       VList [VStr "scf_factory"; VRef vars];
     PhononsFromGsFactory := λ _ vars _,
       VList [VStr "phonon_factory"; VRef vars] |}.

(** Both assertions of the queries of [PiezoElasticFWWorkflow] hold. *)
Definition piezo_metadata_ok (wf : Workflow dict) : Prop :=
  metadata wf !! "workflow_class"
  = Some (VStr PiezoElasticFWWorkflow.workflow_class)
  ∧ metadata wf !! "workflow_module"
    = Some (VStr PiezoElasticFWWorkflow.workflow_module).

Definition piezo_metadata : dict :=
  <["workflow_class" := VStr PiezoElasticFWWorkflow.workflow_class]>
    (<["workflow_module" := VStr PiezoElasticFWWorkflow.workflow_module]> ∅).

(** The metadata that [PhononFWWorkflow] gives to its graph. *)
Definition phonon_metadata : dict :=
  <["workflow_class" := VStr PhononFWWorkflow.workflow_class]>
    (<["workflow_module" := VStr PhononFWWorkflow.workflow_module]> ∅).

Definition named_container (id : Z) (nm dir : string) : Z * Firework dict :=
  (id,
   {| tasks := [mkTask AnaDdbTask [VStr "input"] [] NoDeps None];
      spec := <["mpi_ncpus" := VInt 1]> ∅;
      name := nm; fw_id := id;
      launches := [mkLaunch dir (Some 1%float)];
      archived_launches := [] |}).


(** A graph without post-processing container. *)
Definition no_anaddb_example : Workflow dict :=
  {| id_fw := [named_container 1 "Si_scf" "/run/1";
               named_container 2 "Siddk" "/run/2"];
     links := [(1, [2]); (2, [])]%Z;
     wf_name := "unnamed WF";
     metadata := piezo_metadata |}.

(** ** A built workflow as the queries read it *)

(** The graph [wf] with the content that the specifications of its
    containers have in the store [σ]. *)
Definition snapshot (σ : state) (wf : Workflow loc) : Workflow dict :=
  {| id_fw :=
       map (λ x : Z * Firework loc,
              (x.1,
               {| tasks := tasks x.2; spec := deref σ (spec x.2);
                  name := name x.2; fw_id := fw_id x.2;
                  launches := launches x.2;
                  archived_launches := archived_launches x.2 |}))
           (id_fw wf);
     links := links wf; wf_name := wf_name wf; metadata := metadata wf |}.

(** The graph [wf] once the container [id] has been launched: [l] is its
    last active launch. *)
Definition record_launch {S} (id : Z) (l : Launch) (wf : Workflow S)
  : Workflow S :=
  with_containers
    (map (λ x : Z * Firework S,
            if (x.1 =? id)%Z then
              (x.1,
               {| tasks := tasks x.2; spec := spec x.2; name := name x.2;
                  fw_id := fw_id x.2; launches := launches x.2 ++ [l];
                  archived_launches := archived_launches x.2 |})
            else x)
         (id_fw wf))
    wf.

(** * Properties *)

(** ** The queries of [RelaxFWWorkflow] *)

Lemma check_metadata_ok (wf : Workflow dict) :
  metadata_ok wf → RelaxFWWorkflow.check_metadata wf = Ok tt.
Proof.
  intros [Hc Hm]. unfold RelaxFWWorkflow.check_metadata, getitem. rewrite Hc, Hm. done.
Qed.

Lemma for_each_app {S A} (body : S → A → result S) (st : S) (l1 l2 : list A) :
  for_each body st (l1 ++ l2)
  = st' ← for_each body st l1; for_each body st' l2.
Proof.
  revert st. induction l1 as [|a l1 IH]; intros st; simpl; [done|].
  destruct (body st a); simpl; [apply IH|done].
Qed.

(** *** The scan for the last cell relaxation *)

Lemma ioncell_scan_step_index (st : Z * option Z) (item : Z * Firework dict) :
  sliceable item = true →
  RelaxFWWorkflow.ioncell_scan_step st item
  = Ok match ioncell_index item.2 with
       | Some n => if (n >? st.1)%Z then (n, Some item.1) else st
       | None => st
       end.
Proof.
  destruct item as [id fw]. unfold sliceable, RelaxFWWorkflow.ioncell_scan_step, ioncell_index.
  simpl. destruct (spec fw !! "wf_task_index") as [[]|]; try done.
  destruct (String.eqb _ _); [|done].
  destruct (py_int _); [|done]. by destruct (_ >? _)%Z.
Qed.

Lemma scan_inv_step seen st item :
  scan_inv seen st →
  scan_inv (seen ++ [item])
    match ioncell_index item.2 with
    | Some n => if (n >? st.1)%Z then (n, Some item.1) else st
    | None => st
    end.
Proof.
  intros [Hmax Hsel]. destruct (ioncell_index item.2) as [n|] eqn:Hn.
  - destruct (Z.gtb_spec n st.1) as [Hgt|Hle].
    + split; simpl.
      * intros it m [Hin|Hin%list_elem_of_singleton]%elem_of_app Hm;
          [|subst it].
        -- specialize (Hmax _ _ Hin Hm). lia.
        -- assert (m = n) by congruence. lia.
      * exists item.2. split_and!.
        -- apply elem_of_app. right. destruct item. simpl. set_solver.
        -- done.
        -- destruct st.2 as [id|]; [destruct Hsel as (? & ? & ? & ?)|]; lia.
    + split.
      * intros it m [Hin|Hin%list_elem_of_singleton]%elem_of_app Hm;
          [|subst it].
        -- by eapply Hmax.
        -- assert (m = n) by congruence. lia.
      * destruct st.2 as [id|]; [|done].
        destruct Hsel as (fw & ? & ? & ?). exists fw. set_solver.
  - split.
    + intros it m [Hin|Hin%list_elem_of_singleton]%elem_of_app Hm;
          [|subst it].
      * by eapply Hmax.
      * congruence.
    + destruct st.2 as [id|]; [|done].
      destruct Hsel as (fw & ? & ? & ?). exists fw. set_solver.
Qed.

Lemma scan_inv_for_each seen rest st :
  forallb sliceable rest = true →
  scan_inv seen st →
  ∃ st', for_each RelaxFWWorkflow.ioncell_scan_step st rest = Ok st'
         ∧ scan_inv (seen ++ rest) st'.
Proof.
  revert seen st. induction rest as [|item rest IH]; intros seen st Hsl Hinv.
  - exists st. by rewrite app_nil_r.
  - simpl in Hsl. apply andb_prop in Hsl as [Hitem Hrest].
    simpl. rewrite ioncell_scan_step_index by done. simpl.
    destruct (IH (seen ++ [item]) _ Hrest (scan_inv_step _ _ item Hinv))
      as (st' & Hrun & Hinv').
    exists st'. split; [done|]. by rewrite <- app_assoc in Hinv'.
Qed.

Lemma ioncell_scan_inv (wf : Workflow dict) :
  forallb sliceable (id_fw wf) = true →
  ∃ st, RelaxFWWorkflow.ioncell_scan wf = Ok st ∧ scan_inv (id_fw wf) st.
Proof.
  intros Hsl. apply (scan_inv_for_each [] (id_fw wf) (-1, None)%Z Hsl).
  split; [|done]. intros ? ? Hin. by apply elem_of_nil in Hin.
Qed.

Lemma assoc_get_NoDup {A} (l : list (Z * A)) (k : Z) (a : A) :
  NoDup l.*1 → (k, a) ∈ l → assoc_get l k = Ok a.
Proof.
  induction l as [|[k' a'] l IH]; intros Hnd Hin.
  - by apply elem_of_nil in Hin.
  - simpl in *. apply NoDup_cons in Hnd as [Hk' Hnd].
    apply elem_of_cons in Hin as [Heq|Hin].
    + injection Heq as <- <-. by rewrite Z.eqb_refl.
    + destruct (Z.eqb_spec k' k) as [->|Hne]; [|by apply IH].
      exfalso. apply Hk'. apply list_elem_of_fmap. by exists (k, a).
Qed.

(** A scan over containers none of which stands for a cell relaxation
    leaves the state as it is, when it ends. *)
Lemma ioncell_scan_no_index (l : list (Z * Firework dict)) st st' :
  (∀ item, item ∈ l → ioncell_index item.2 = None) →
  for_each RelaxFWWorkflow.ioncell_scan_step st l = Ok st' → st' = st.
Proof.
  revert st. induction l as [|[id fw] l IH]; intros st Hnone; cbn [for_each].
  - congruence.
  - assert (ioncell_index fw = None) as Hfw.
    { apply (Hnone (id, fw)). set_solver. }
    assert (RelaxFWWorkflow.ioncell_scan_step st (id, fw) = Ok st
            ∨ ∃ e, RelaxFWWorkflow.ioncell_scan_step st (id, fw) = Raise e) as [->| [e ->]].
    { unfold ioncell_index in Hfw. unfold RelaxFWWorkflow.ioncell_scan_step.
      destruct (spec fw !! "wf_task_index") as [[]|]; eauto.
      destruct (String.eqb _ _); eauto. rewrite Hfw. eauto. }
    + simpl. apply IH. intros item Hin. apply Hnone. set_solver.
    + done.
Qed.

(** C3 (as amended).  In a graph of [RelaxFWWorkflow] whose stage indices can
    be sliced and whose container ids are distinct, if some container has a
    stage index that begins with ['ioncell_'] and ends, after the last
    underscore, in an integer greater than -1, then
    [RelaxFWWorkflow.get_final_structure_and_history] selects a container whose number is
    maximal among all containers with such an index, and returns what the
    extraction yields for it: the last task of the container is bound to the
    directory of the last launch of [archived_launches + launches]. *)
Theorem final_structure_of_last_ioncell `{Collaborators} (wf : Workflow dict) :
  metadata_ok wf →
  forallb sliceable (id_fw wf) = true →
  NoDup (id_fw wf).*1 →
  (∃ item n, item ∈ id_fw wf ∧ ioncell_index item.2 = Some n ∧ (-1 < n)%Z) →
  ∃ fw_id fw n,
    (fw_id, fw) ∈ id_fw wf
    ∧ ioncell_index fw = Some n
    ∧ (∀ item n', item ∈ id_fw wf → ioncell_index item.2 = Some n' →
                  (n' ≤ n)%Z)
    ∧ RelaxFWWorkflow.get_final_structure_and_history wf = RelaxFWWorkflow.extract_structure_and_history fw
    ∧ (∀ l t, last (archived_launches fw ++ launches fw) = Some l →
              last (tasks fw) = Some t →
              RelaxFWWorkflow.get_final_structure_and_history wf
              = (structure ← get_final_structure (set_workdir t (launch_dir l));
                 history ← loadfn (path_join (launch_dir l) "history.json");
                 structure_dict ← as_dict structure;
                 Ok (<["structure" := structure_dict]>
                       (<["history" := history]> ∅)))).
Proof.
  intros Hmeta Hsl Hnd (item & n & Hin & Hn & Hpos).
  destruct (ioncell_scan_inv wf Hsl) as ([m sel] & Hscan & Hmax & Hsel).
  simpl in *. destruct sel as [id|].
  2:{ subst m. specialize (Hmax _ _ Hin Hn). lia. }
  destruct Hsel as (fw & Hfw & Hm & _).
  assert (RelaxFWWorkflow.get_final_structure_and_history wf
          = RelaxFWWorkflow.extract_structure_and_history fw) as Hres.
  { unfold RelaxFWWorkflow.get_final_structure_and_history.
    rewrite check_metadata_ok, Hscan by done. simpl.
    by rewrite (assoc_get_NoDup _ _ _ Hnd Hfw). }
  exists id, fw, m. split_and!; try done.
  intros l t Hl Ht. rewrite Hres. unfold RelaxFWWorkflow.extract_structure_and_history, list_last.
  by rewrite Hl, Ht.
Qed.

Lemma final_structure_of_last_ioncell_witness :
  ∃ fw_id fw n,
    (fw_id, fw) ∈ id_fw relax_example
    ∧ ioncell_index fw = Some n
    ∧ (∀ item n', item ∈ id_fw relax_example →
                  ioncell_index item.2 = Some n' → (n' ≤ n)%Z)
    ∧ @RelaxFWWorkflow.get_final_structure_and_history example_collaborators relax_example
      = @RelaxFWWorkflow.extract_structure_and_history example_collaborators fw
    ∧ (∀ l t, last (archived_launches fw ++ launches fw) = Some l →
              last (tasks fw) = Some t →
              @RelaxFWWorkflow.get_final_structure_and_history example_collaborators
                relax_example
              = (structure ← @get_final_structure example_collaborators
                               (set_workdir t (launch_dir l));
                 history ← @loadfn example_collaborators
                             (path_join (launch_dir l) "history.json");
                 structure_dict ← @as_dict example_collaborators structure;
                 Ok (<["structure" := structure_dict]>
                       (<["history" := history]> ∅)))).
Proof.
  apply (@final_structure_of_last_ioncell example_collaborators relax_example).
  - split; reflexivity.
  - reflexivity.
  - apply (bool_decide_unpack _). vm_compute. reflexivity.
  - exists restarted_container, 2%Z. split_and!.
    + apply list_elem_of_In. simpl. tauto.
    + reflexivity.
    + lia.
Defined.

(** The graph of [relax_example]: the container of stage ['ioncell_2'] is
    selected and read in the directory of its active launch. *)
Example final_structure_of_relax_example :
  @RelaxFWWorkflow.get_final_structure_and_history example_collaborators relax_example
  = Ok (<["structure" := VStr "structure in /run/3b"]>
          (<["history" := VStr "content of /run/3b/history.json"]> ∅)).
Proof. reflexivity. Qed.

(** C3, counterexample.  The only container of the graph has the stage index
    ['ioncell_-5'], that is ['ioncell_'] followed by text that parses as the
    integer -5; no container is selected and the query fails. *)
Lemma negative_index_not_selected :
  (∃ item t n,
      item ∈ id_fw negative_index_example
      ∧ spec item.2 !! "wf_task_index" = Some (VStr ("ioncell_" +:+ t))
      ∧ py_int t = Some n)
  ∧ @RelaxFWWorkflow.get_final_structure_and_history example_collaborators
      negative_index_example
    = Raise (RuntimeError "Final strucure not found ...").
Proof.
  split; [|reflexivity].
  exists (example_container 1 "ioncell_-5" 4 "/run/1" 20%float), "-5", (-5)%Z.
  split_and!; [|reflexivity|reflexivity].
  apply list_elem_of_In. simpl. tauto.
Qed.

(** C4.  When no container of the graph has a stage index that begins with
    ['ioncell_'] and ends in text that parses as an integer, retrieval never
    returns a result, and on a graph of [RelaxFWWorkflow] it raises the
    [RuntimeError] that reports the missing structure.  A container whose
    index ends in text that does not parse is skipped by the scan, and the
    scan itself does not fail. *)
Theorem missing_final_structure_is_fatal `{Collaborators} :
  (∀ wf : Workflow dict,
      (∀ item, item ∈ id_fw wf → ioncell_index item.2 = None) →
      is_ok (RelaxFWWorkflow.get_final_structure_and_history wf) = false
      ∧ (metadata_ok wf → forallb sliceable (id_fw wf) = true →
         RelaxFWWorkflow.get_final_structure_and_history wf
         = Raise (RuntimeError "Final strucure not found ...")))
  ∧ (∀ (st : Z * option Z) (id : Z) (fw : Firework dict) (s : string),
        spec fw !! "wf_task_index" = Some (VStr s) →
        py_int (str_split_last "_" s) = None →
        RelaxFWWorkflow.ioncell_scan_step st (id, fw) = Ok st)
  ∧ (∀ wf : Workflow dict,
        forallb sliceable (id_fw wf) = true → is_ok (RelaxFWWorkflow.ioncell_scan wf) = true).
Proof.
  split_and!.
  - intros wf Hnone.
    assert (∀ st, RelaxFWWorkflow.ioncell_scan wf = Ok st → st = (-1, None)%Z) as Hscan.
    { intros st. by apply ioncell_scan_no_index. }
    split.
    + unfold RelaxFWWorkflow.get_final_structure_and_history.
      destruct (RelaxFWWorkflow.check_metadata wf); [|done]. simpl.
      destruct (RelaxFWWorkflow.ioncell_scan wf) as [st|] eqn:E; [|done].
      by rewrite (Hscan st eq_refl).
    + intros Hmeta Hsl. unfold RelaxFWWorkflow.get_final_structure_and_history.
      rewrite check_metadata_ok by done. simpl.
      destruct (ioncell_scan_inv wf Hsl) as (st & Hst & _).
      rewrite Hst. by rewrite (Hscan st Hst).
  - intros st id fw s Hs Hp. unfold RelaxFWWorkflow.ioncell_scan_step. rewrite Hs, Hp.
    by destruct (String.eqb _ _).
  - intros wf Hsl. destruct (ioncell_scan_inv wf Hsl) as (st & -> & _). done.
Qed.

Lemma missing_final_structure_is_fatal_witness :
  (is_ok (@RelaxFWWorkflow.get_final_structure_and_history example_collaborators
            no_ioncell_example) = false
   ∧ @RelaxFWWorkflow.get_final_structure_and_history example_collaborators no_ioncell_example
     = Raise (RuntimeError "Final strucure not found ..."))
  ∧ RelaxFWWorkflow.ioncell_scan_step ((-1)%Z, None)
      (example_container 2 "ioncell_autoparal" 1 "/run/2" 2%float)
    = Ok ((-1)%Z, None)
  ∧ is_ok (RelaxFWWorkflow.ioncell_scan no_ioncell_example) = true.
Proof.
  destruct (@missing_final_structure_is_fatal example_collaborators)
    as (Hfatal & Hskip & Hscan).
  split_and!.
  - apply (Hfatal no_ioncell_example).
    intros item Hin. apply list_elem_of_In in Hin. simpl in Hin.
    destruct Hin as [<-|[<-|[]]]; reflexivity.
  - apply (Hfatal no_ioncell_example).
    + intros item Hin. apply list_elem_of_In in Hin. simpl in Hin.
      destruct Hin as [<-|[<-|[]]]; reflexivity.
    + split; reflexivity.
    + reflexivity.
  - apply (Hskip _ _ _ "ioncell_autoparal"); reflexivity.
  - apply (Hscan no_ioncell_example). reflexivity.
Defined.

(** *** The accounting of compute time *)

(** One iteration of the loop bills the container. *)
Lemma runtime_step_billing (t : float) (item : Z * Firework dict) :
  match billing_of item.2 with
  | NotBilled => RelaxFWWorkflow.runtime_step t item = Ok t
  | Billed x => RelaxFWWorkflow.runtime_step t item = Ok (PrimFloat.add t x)
  | Unbillable => is_ok (RelaxFWWorkflow.runtime_step t item) = false
  end.
Proof.
  destruct item as [id fw].
  unfold billing_of, RelaxFWWorkflow.runtime_step, autoparal_tagged,
    last_runtime, list_last, getitem.
  cbn [fst snd].
  destruct (spec fw !! "wf_task_index") as [[| | | |s| |]|]; try done.
  destruct (String.eqb (str_suffix 9 s) "autoparal").
  { destruct (last (launches fw)) as [l|]; [|done]. simpl.
    by destruct (runtime_secs l). }
  assert (match
            match last (launches fw), spec fw !! "mpi_ncpus" with
            | Some l, Some n =>
                match runtime_mul (runtime_secs l) n with
                | Ok x => Billed x
                | Raise _ => Unbillable
                end
            | _, _ => Unbillable
            end
          with
          | NotBilled =>
              (l ← match last (launches fw) with
                   | Some a => Ok a
                   | None => Raise IndexError
                   end;
               n ← match spec fw !! "mpi_ncpus" with
                   | Some v => Ok v
                   | None => Raise (KeyError (VStr "mpi_ncpus"))
                   end;
               x ← runtime_mul (runtime_secs l) n;
               runtime_add t (Some x)) = Ok t
          | Billed x =>
              (l ← match last (launches fw) with
                   | Some a => Ok a
                   | None => Raise IndexError
                   end;
               n ← match spec fw !! "mpi_ncpus" with
                   | Some v => Ok v
                   | None => Raise (KeyError (VStr "mpi_ncpus"))
                   end;
               x ← runtime_mul (runtime_secs l) n;
               runtime_add t (Some x)) = Ok (PrimFloat.add t x)
          | Unbillable =>
              is_ok
                (l ← match last (launches fw) with
                     | Some a => Ok a
                     | None => Raise IndexError
                     end;
                 n ← match spec fw !! "mpi_ncpus" with
                     | Some v => Ok v
                     | None => Raise (KeyError (VStr "mpi_ncpus"))
                     end;
                 x ← runtime_mul (runtime_secs l) n;
                 runtime_add t (Some x)) = false
          end) as Hmul.
  { destruct (last (launches fw)) as [l|]; [|done].
    destruct (spec fw !! "mpi_ncpus") as [n|]; [|done]. simpl.
    by destruct (runtime_mul (runtime_secs l) n). }
  destruct (String.eqb (str_prefix 4 s) "ion_"); [exact Hmul|].
  destruct (String.eqb (str_prefix 8 s) "ioncell_"); [exact Hmul|done].
Qed.

(** The loop returns the bills added in the order of iteration when every
    container can be billed, and raises otherwise. *)
Lemma for_each_runtime_billing (l : list (Z * Firework dict)) (t : float) :
  match for_each RelaxFWWorkflow.runtime_step t l with
  | Ok t' => forallb billable l = true ∧ t' = billed_from t l
  | Raise _ => forallb billable l = false
  end.
Proof.
  revert t. induction l as [|item l IH]; intros t; [done|].
  cbn [for_each forallb]. unfold billed_from. cbn [foldl].
  fold (billed_from
          match billing_of item.2 with
          | Billed x => PrimFloat.add t x
          | _ => t
          end l).
  pose proof (runtime_step_billing t item) as Hstep. unfold billable at 1 3.
  destruct (billing_of item.2) as [|x|].
  - rewrite Hstep. simpl. apply IH.
  - rewrite Hstep. simpl. apply IH.
  - by destruct (RelaxFWWorkflow.runtime_step t item).
Qed.

Lemma runtime_secs_billing (wf : Workflow dict) :
  metadata_ok wf →
  match RelaxFWWorkflow.get_runtime_secs wf with
  | Ok t => forallb billable (id_fw wf) = true
            ∧ t = billed_from 0%float (id_fw wf)
  | Raise _ => forallb billable (id_fw wf) = false
  end.
Proof.
  intros Hmeta. unfold RelaxFWWorkflow.get_runtime_secs.
  rewrite check_metadata_ok by done. simpl.
  apply for_each_runtime_billing.
Qed.

Lemma billed_from_app (t : float) (l1 l2 : list (Z * Firework dict)) :
  billed_from t (l1 ++ l2) = billed_from (billed_from t l1) l2.
Proof. apply foldl_app. Qed.




(** A dry run is billed the runtime of its last launch. *)
Lemma dry_run_billing (fw : Firework dict) (s : string) :
  spec fw !! "wf_task_index" = Some (VStr s) →
  str_suffix 9 s = "autoparal" →
  billing_of fw
  = match last_runtime fw with
    | Some r => Billed r
    | None => Unbillable
    end.
Proof.
  intros Hs Hsuf. unfold billing_of, autoparal_tagged. by rewrite Hs, Hsuf.
Qed.

(** C10.  A container whose stage index ends in ['autoparal'] is billed the
    plain runtime of its last launch, once, whatever its prefix and its
    [mpi_ncpus] are: when [RelaxFWWorkflow.get_runtime_secs] returns, the
    total is the bills of the containers before it, then this runtime, then
    the bills of the containers after it, and it stays the same when the
    [mpi_ncpus] of the container is replaced.  This holds for the indices
    ['ion_autoparal'] and ['ioncell_autoparal'], which also begin like a
    production stage. *)
Theorem autoparal_takes_precedence (wf : Workflow dict)
    (pre post : list (Z * Firework dict)) (item : Z * Firework dict)
    (s : string) :
  metadata_ok wf →
  id_fw wf = pre ++ item :: post →
  spec item.2 !! "wf_task_index" = Some (VStr s) →
  str_suffix 9 s = "autoparal" →
  is_ok (RelaxFWWorkflow.get_runtime_secs wf) = true →
  (∃ r, last_runtime item.2 = Some r
        ∧ RelaxFWWorkflow.get_runtime_secs wf
          = Ok (billed_from (PrimFloat.add (billed_from 0%float pre) r)
                  post))
  ∧ (∀ v, RelaxFWWorkflow.get_runtime_secs
            (with_containers (pre ++ with_cpus v item :: post) wf)
          = RelaxFWWorkflow.get_runtime_secs wf)
  ∧ (str_suffix 9 "ion_autoparal" = "autoparal"
     ∧ str_prefix 4 "ion_autoparal" = "ion_"
     ∧ str_suffix 9 "ioncell_autoparal" = "autoparal"
     ∧ str_prefix 8 "ioncell_autoparal" = "ioncell_").
Proof.
  intros Hmeta Hsplit Hs Hsuf Hok.
  pose proof (runtime_secs_billing wf Hmeta) as Hbill.
  destruct (RelaxFWWorkflow.get_runtime_secs wf) as [t|]; [|done].
  destruct Hbill as [Hall ->].
  rewrite Hsplit in Hall. rewrite forallb_app in Hall.
  apply andb_prop in Hall as [Hpre Hall]. cbn [forallb] in Hall.
  apply andb_prop in Hall as [Hitem Hpost].
  pose proof (dry_run_billing item.2 s Hs Hsuf) as Hbilling.
  unfold billable in Hitem. rewrite Hbilling in Hitem.
  destruct (last_runtime item.2) as [r|] eqn:Hr; [|done].
  assert (billed_from 0%float (pre ++ item :: post)
          = billed_from (PrimFloat.add (billed_from 0%float pre) r) post)
    as Htotal.
  { rewrite billed_from_app. unfold billed_from at 1.
    cbn [foldl]. by rewrite Hbilling. }
  split; [|split; [|by vm_compute]].
  - exists r. split; [done|]. by rewrite Hsplit, Htotal.
  - intros v.
    assert (billing_of (with_cpus v item).2 = Billed r) as Hbilling'.
    { rewrite (dry_run_billing _ s).
      - unfold last_runtime in *. cbn [with_cpus snd launches]. by rewrite Hr.
      - cbn [with_cpus snd spec]. by rewrite lookup_insert_ne.
      - done. }
    assert (forallb billable (pre ++ with_cpus v item :: post) = true)
      as Hall'.
    { rewrite forallb_app. cbn [forallb]. rewrite Hpre, Hpost.
      unfold billable. by rewrite Hbilling'. }
    pose proof (runtime_secs_billing
                  (with_containers (pre ++ with_cpus v item :: post) wf)
                  Hmeta) as Hbill'.
    cbn [with_containers id_fw] in Hbill'.
    destruct (RelaxFWWorkflow.get_runtime_secs _) as [t'|].
    + destruct Hbill' as [_ ->].
      rewrite Hsplit, Htotal, billed_from_app. unfold billed_from at 1.
      cbn [foldl]. by rewrite Hbilling'.
    + congruence.
Qed.

Lemma autoparal_takes_precedence_witness :
  ∃ r, last_runtime
         (example_container 4 "ioncell_autoparal" 16 "/run/4" 2%float).2
       = Some r
       ∧ RelaxFWWorkflow.get_runtime_secs dry_run_example
         = Ok (billed_from
                 (PrimFloat.add
                    (billed_from 0%float
                       [example_container 1 "ion_1" 4 "/run/1" 20%float])
                    r)
                 [example_container 2 "ioncell_1" 4 "/run/2" 25%float]).
Proof.
  refine (proj1
    (autoparal_takes_precedence dry_run_example
       [example_container 1 "ion_1" 4 "/run/1" 20%float]
       [example_container 2 "ioncell_1" 4 "/run/2" 25%float]
       (example_container 4 "ioncell_autoparal" 16 "/run/4" 2%float)
       "ioncell_autoparal" _ _ _ _ _)).
  - split; reflexivity.
  - reflexivity.
  - reflexivity.
  - vm_compute. reflexivity.
  - vm_compute. reflexivity.
Defined.

(** ** Metadata *)





(** A structure without site counts as false: nothing is derived from it. *)
Lemma add_metadata_empty_structure {S} (class_name : string) (st : Structure)
    (wf : Workflow S) :
  num_sites st = 0%nat →
  metadata (add_metadata class_name (Some st) None wf)
  = <["wf_type" := VStr class_name]> (metadata wf).
Proof.
  intros Hn. unfold add_metadata, dict_update. rewrite Hn. simpl.
  apply map_eq. intros k.
  rewrite !lookup_union, lookup_empty.
  destruct (decide (k = "wf_type")) as [->|Hk].
  - rewrite !lookup_insert_eq. by destruct (metadata wf !! "wf_type").
  - rewrite !lookup_insert_ne by done. rewrite lookup_empty.
    by destruct (metadata wf !! k).
Qed.

(** ** Input decorators *)

(** [ScfFWWorkflow.from_factory] builds the workflow on the object that the
    factory generated: what the decorators return is not used. *)
Lemma scf_from_factory_input `{Collaborators} (structure pseudos : val)
    (options : FactoryOptions) (extra_abivars : option loc)
    (decorators : list Decorator) (autoparal : bool) (spec : option loc)
    (σ : state) :
  ∃ vars : dict,
    first_input
      (ScfFWWorkflow.from_factory structure pseudos options extra_abivars
         (Some decorators) autoparal spec σ).1
    = Some (foldl (λ inp d, dec_inplace d inp)
              (set_vars (scf_input structure pseudos options) vars)
              decorators).
Proof.
  destruct extra_abivars, spec, autoparal; eexists; reflexivity.
Qed.

(** [RelaxFWWorkflow.from_factory] composes the decorators in list order. *)
Lemma relax_from_factory_input `{Collaborators} (structure pseudos : val)
    (options : FactoryOptions) (extra_abivars : option loc)
    (decorators : list Decorator) (autoparal : bool) (spec : option loc)
    (initialization_info : val) (target_dilatmx : option float) (σ : state) :
  ∃ vars : dict,
    first_input
      (RelaxFWWorkflow.from_factory structure pseudos options extra_abivars
         (Some decorators) autoparal spec initialization_info target_dilatmx
         σ).1
    = Some (foldl (λ inp d, dec_return d inp)
              (set_vars (ion_ioncell_relax_input structure pseudos options).1
                 vars)
              decorators).
Proof.
  destruct extra_abivars, spec, autoparal, initialization_info;
    eexists; reflexivity.
Qed.

(** C6.  [ScfFWWorkflow.from_factory] with two decorators that return a
    marked copy of their argument: the workflow is built on the input as
    generated, whereas the composition of the decorators is the input marked
    twice, which is what [RelaxFWWorkflow.from_factory] builds on. *)
Theorem scf_from_factory_drops_decorated_input :
  first_input
    (@ScfFWWorkflow.from_factory example_collaborators (VStr "Si2")
       (VStr "pseudos") example_options None (Some example_decorators) false
       None empty_state).1
  = Some (VStr "scf_input")
  ∧ foldl (λ inp d, dec_return d inp) (VStr "scf_input") example_decorators
    = VStr "scf_input+d1+d2"
  ∧ first_input
      (@RelaxFWWorkflow.from_factory example_collaborators (VStr "Si2")
         (VStr "pseudos") example_options None (Some example_decorators) false
         None VNone None empty_state).1
    = Some (VStr "ion_input+d1+d2").
Proof. split_and!; reflexivity. Qed.

(** ** The factory of [PiezoElasticFWWorkflow] *)

(** C7.  [PiezoElasticFWWorkflow.from_factory] builds no workflow, and the
    error it raises is the [TypeError] of calling [NotImplemented], not a
    [NotImplementedError]. *)
Theorem piezo_from_factory_raises_type_error :
  PiezoElasticFWWorkflow.from_factory
  = Raise (TypeError "'NotImplementedType' object is not callable")
  ∧ is_ok PiezoElasticFWWorkflow.from_factory = false
  ∧ (∀ msg, PiezoElasticFWWorkflow.from_factory
            ≠ Raise (NotImplementedError msg)).
Proof. split_and!; done. Qed.

(** ** The store while a workflow is built *)

Ltac run_monad :=
  cbv beta iota zeta delta
      [mbind M_bind mret M_ret new_Firework dict_copy read_dict new_dict
       setitem modify_dict next_fw_id default_dict default_obj
       set_short_single_core_to_spec base_spec add_anaddb_task
       fst snd heap next_loc fwid_ctr deref spec_of].

Ltac heap_norm :=
  repeat first
    [ rewrite lookup_alter_eq
    | rewrite lookup_insert_eq
    | rewrite lookup_alter_ne by lia
    | rewrite lookup_insert_ne by lia
    | progress cbn [default fmap option_fmap option_map] ].

Lemma M_bind_run {A B} (m : M A) (f : A → M B) (σ σ' : state) (a : A) :
  m σ = (a, σ') → (m ≫= f) σ = f a σ'.
Proof. intros E. unfold mbind, M_bind. by rewrite E. Qed.

(** The run of [base_spec]: it returns a new object [l] and leaves the
    objects that existed before as they were. *)
Lemma base_spec_run `{Collaborators} (autoparal : bool) (spec : option loc)
    (initialization_info : val) (σ : state) :
  ∃ (l : loc) (σ1 : state) (stored : val) (d : dict),
    base_spec autoparal spec initialization_info σ = (l, σ1)
    ∧ fwid_ctr σ1 = fwid_ctr σ
    ∧ next_loc σ ≤ l ∧ l < next_loc σ1
    ∧ (∀ l', l' < next_loc σ → heap σ1 !! l' = heap σ !! l')
    ∧ heap σ1 !! l = Some (base_content autoparal d stored)
    ∧ ((∀ l0, spec = Some l0 → l0 < next_loc σ) →
       d = match spec with Some l0 => deref σ l0 | None => ∅ end)
    ∧ match initialization_info with
      | VNone => ∃ f, stored = VRef f ∧ next_loc σ ≤ f ∧ f < next_loc σ1
                      ∧ f ≠ l ∧ heap σ1 !! f = Some ∅
      | _ => stored = initialization_info
      end.
Proof.
  destruct σ as [h n c].
  destruct autoparal, spec as [l0|], initialization_info; run_monad;
    unfold base_content;
    do 4 eexists; (split; [reflexivity|]); cbn [heap next_loc fwid_ctr];
    heap_norm.
  all: split_and!; try done; try lia.
  all: try (intros; by heap_norm).
  all: try (intros Hl0; specialize (Hl0 _ eq_refl); by heap_norm).
  all: try (eexists; split_and!; [reflexivity|try lia..|by heap_norm]).
Qed.

(** The first lines of a constructor are a run of [base_spec]. *)
Lemma base_spec_bind `{Collaborators} {B} (autoparal : bool)
    (spec : option loc) (initialization_info : val) (rest : loc → M B)
    (σ : state) :
  (spec ← default_dict spec;
   initialization_info ← default_obj initialization_info;
   spec ← dict_copy spec;
   _ ← setitem spec "initialization_info" initialization_info;
   spec ← (if autoparal then set_short_single_core_to_spec (Some spec)
           else mret spec);
   rest spec) σ
  = (base_spec autoparal spec initialization_info ≫= rest) σ.
Proof.
  unfold base_spec, mbind, M_bind.
  destruct (default_dict spec σ) as [l0 σ0].
  destruct (default_obj initialization_info σ0) as [v σ1].
  destruct (dict_copy l0 σ1) as [l1 σ2].
  destruct (setitem l1 "initialization_info" v σ2) as [[] σ3].
  by destruct autoparal.
Qed.

(** ** The graph of a built workflow *)

Lemma new_Workflow_edge (fireworks : list (Firework loc))
    (links_dict : list (Firework loc * list (Firework loc))) (md : dict)
    (a b : Z) :
  edge (new_Workflow fireworks links_dict md) a b →
  ∃ p cs, (p, cs) ∈ links_dict ∧ a = fw_id p ∧ b ∈ map fw_id cs.
Proof.
  intros (cs & Hin & Hb). unfold new_Workflow in Hin. cbn [links] in Hin.
  apply elem_of_app in Hin as [Hin|Hin].
  - apply list_elem_of_fmap in Hin as ([p l] & [= -> ->] & Hin).
    by exists p, l.
  - apply list_elem_of_fmap in Hin as (fw & [= -> ->] & _).
    by apply elem_of_nil in Hb.
Qed.

Lemma new_Workflow_keys (fireworks : list (Firework loc))
    (links_dict : list (Firework loc * list (Firework loc))) (md : dict)
    (a : Z) :
  a ∈ map fst (links (new_Workflow fireworks links_dict md)) →
  a ∈ map fw_id (map fst links_dict) ∨ a ∈ map fw_id fireworks.
Proof.
  unfold new_Workflow. cbn [links]. rewrite map_app.
  intros [Hin|Hin]%elem_of_app.
  - left. rewrite !map_map in *. done.
  - right. rewrite map_map in Hin. cbn [fst] in Hin.
    apply list_elem_of_fmap in Hin as (fw & -> & Hfw).
    apply list_elem_of_filter in Hfw as [_ Hfw].
    apply list_elem_of_fmap. by exists fw.
Qed.

Lemma append_fw_to_wf_edge {S} (new_fw : Firework S) (wf : Workflow S)
    (a b : Z) :
  edge (append_fw_to_wf new_fw wf) a b →
  edge wf a b ∨ (b = fw_id new_fw ∧ a ∈ map fst (links wf)).
Proof.
  intros (cs & Hin & Hb). unfold append_fw_to_wf in Hin. cbn [links] in Hin.
  apply elem_of_app in Hin as [Hin|Hin].
  - apply list_elem_of_fmap in Hin as ([p l] & Heq & Hin). cbn [fst snd] in Heq.
    destruct (decide _).
    + injection Heq as -> ->. apply elem_of_app in Hb as [Hb|Hb].
      * left. by exists l.
      * right. apply list_elem_of_singleton in Hb. split; [done|].
        apply list_elem_of_fmap. by exists (p, l).
    + injection Heq as -> ->. left. by exists l.
  - apply list_elem_of_singleton in Hin. injection Hin as -> ->.
    by apply elem_of_nil in Hb.
Qed.

(** Links that go from a container to one with a smaller id form no cycle. *)
Lemma decreasing_acyclic {S} (wf : Workflow S) :
  (∀ a b, edge wf a b → (b < a)%Z) → acyclic wf.
Proof.
  intros Hdec a Hcycle.
  assert (∀ x y, tc (edge wf) x y → (y < x)%Z) as Htc.
  { intros x y Hxy. induction Hxy as [x y Hxy|x y z Hxy _ IH].
    - by apply Hdec.
    - apply Hdec in Hxy. lia. }
  apply Htc in Hcycle. lia.
Qed.

Ltac lookup_cases H :=
  repeat match type of H with
    | Some _ = Some _ => injection H as <-
    | None = Some _ => discriminate H
    | _ !! ?i = Some _ => destruct i as [|i]; simpl in H
    end.

Ltac edge_cases H :=
  repeat match type of H with
    | _ ∈ _ :: _ => apply elem_of_cons in H as [H|H]
    | _ ∈ [] => by apply elem_of_nil in H
    | _ ∈ map _ _ => cbn [map] in H
    end.

Ltac open_wf :=
  unfold append_fw_to_wf, new_Workflow; cbn [id_fw map app].

Ltac read_spec Hl :=
  unfold spec_of, deref; cbn [fst snd heap spec written_index];
  heap_norm; try rewrite Hl; heap_norm; unfold base_content.

(** The proof of [build_post] for a constructor that starts with
    [base_spec]. *)
Ltac builder_post σ a s ii :=
  let h := fresh "h" in let n := fresh "n" in let c := fresh "c" in
  destruct σ as [h n c];
  destruct (base_spec_run a s ii (mkState h n c))
    as (l & σ1 & stored & d0 & Hrun & Hctr & Hlo & Hhi & Hframe & Hl & Hd0
        & Hii);
  cbv zeta; rewrite base_spec_bind; rewrite (M_bind_run _ _ _ _ _ Hrun);
  destruct σ1 as [h1 n1 c1]; cbn [heap next_loc fwid_ctr] in *; subst c1;
  run_monad; unfold build_post, caller_spec, allocated_call;
  cbn [heap next_loc fwid_ctr call_autoparal call_spec
       call_initialization_info stage_containers];
  split_and!;
  [ lia
  | intros l' Hl'; heap_norm; by apply Hframe
  | open_wf; intros k item Hk;
    lookup_cases Hk; cbn [fst snd spec fw_id]; split_and!; lia
  | open_wf; intros k1 k2 x y Hx Hy;
    lookup_cases Hx; lookup_cases Hy; cbn [fst snd spec]; lia
  | idtac
  | open_wf; intros -> k item Hk;
    lookup_cases Hk; read_spec Hl; by simplify_map_eq
  | open_wf; intros given [= <-]; exists stored; split;
    [ unfold stored_initialization_info; destruct ii; try done;
      destruct Hii as (f & -> & ? & ? & ? & Hf);
      exists f; cbn [heap next_loc]; split_and!; [done|lia|by heap_norm]
    | intros k item Hk Hlt;
      lookup_cases Hk; try lia; read_spec Hl; destruct a; by simplify_map_eq ]
  | open_wf; intros k item Hk Hge;
    lookup_cases Hk; try lia; read_spec Hl; by simplify_map_eq
  | open_wf; intros k item idx Hk Hidx;
    lookup_cases Hk; cbn [written_index] in Hidx; try discriminate Hidx;
    injection Hidx as <-; read_spec Hl; destruct a; by simplify_map_eq
  | open_wf; intros Hs k item Hk Hidx; specialize (Hd0 Hs);
    lookup_cases Hk; cbn [written_index] in Hidx; try discriminate Hidx;
    read_spec Hl; destruct a, s; by simplify_map_eq ].

Ltac chain_edges :=
  let x := fresh "x" in let y := fresh "y" in
  let p := fresh "p" in let cs := fresh "cs" in
  let Hin := fresh "Hin" in let Hy := fresh "Hy" in
  intros x y (p & cs & Hin & -> & Hy)%new_Workflow_edge;
  edge_cases Hin; injection Hin as -> ->; edge_cases Hy; subst y;
  cbn [fw_id]; lia.

Lemma input_post `{Collaborators} i t a s ii σ :
  build_post (CallInputFW i t a s ii) σ
    (InputFWWorkflow.init i t a s ii σ).1 (InputFWWorkflow.init i t a s ii σ).2.
Proof. unfold InputFWWorkflow.init. builder_post σ a s ii. chain_edges. Qed.

Lemma scf_post `{Collaborators} i a s ii σ :
  build_post (CallScfFW i a s ii) σ
    (ScfFWWorkflow.init i a s ii σ).1 (ScfFWWorkflow.init i a s ii σ).2.
Proof. unfold ScfFWWorkflow.init. builder_post σ a s ii. chain_edges. Qed.

Lemma relax_post `{Collaborators} i j a s ii d σ :
  build_post (CallRelaxFW i j a s ii d) σ
    (RelaxFWWorkflow.init i j a s ii d σ).1
    (RelaxFWWorkflow.init i j a s ii d σ).2.
Proof. unfold RelaxFWWorkflow.init. builder_post σ a s ii. chain_edges. Qed.

Lemma hybrid_post `{Collaborators} i j a s ii σ :
  build_post (CallHybridOneShotFW i j a s ii) σ
    (HybridOneShotFWWorkflow.init i j a s ii σ).1
    (HybridOneShotFWWorkflow.init i j a s ii σ).2.
Proof.
  unfold HybridOneShotFWWorkflow.init. builder_post σ a s ii. chain_edges.
Qed.

Lemma phonon_post `{Collaborators} i j a s ii σ :
  build_post (CallPhononFW i j a s ii) σ
    (PhononFWWorkflow.init i j a s ii σ).1
    (PhononFWWorkflow.init i j a s ii σ).2.
Proof. unfold PhononFWWorkflow.init. builder_post σ a s ii. chain_edges. Qed.

Lemma piezo_post `{Collaborators} i j r a s ii σ :
  build_post (CallPiezoElasticFW i j r a s ii) σ
    (PiezoElasticFWWorkflow.init i j r a s ii σ).1
    (PiezoElasticFWWorkflow.init i j r a s ii σ).2.
Proof.
  unfold PiezoElasticFWWorkflow.init. builder_post σ a s ii.
  intros x y [Hxy|[-> Hx]]%append_fw_to_wf_edge.
  - revert x y Hxy. chain_edges.
  - apply new_Workflow_keys in Hx as [Hx|Hx];
      edge_cases Hx; subst x; cbn [fst fw_id]; lia.
Qed.

Lemma nscf_post `{Collaborators} i j a s σ :
  build_post (CallNscfFW i j a s) σ
    (NscfFWWorkflow.init i j a s σ).1 (NscfFWWorkflow.init i j a s σ).2.
Proof.
  unfold NscfFWWorkflow.init. destruct σ as [h n c].
  unfold build_post, caller_spec, allocated_call.
  cbn [call_autoparal call_spec call_initialization_info stage_containers].
  destruct a, s as [l0|]; run_monad; cbn [heap next_loc fwid_ctr];
    (split_and!;
     [ lia
     | intros l' Hl'; by heap_norm
     | open_wf; intros k item Hk;
       lookup_cases Hk; cbn [fst snd spec fw_id]; split_and!; lia
     | open_wf; intros k1 k2 x y Hx Hy;
       lookup_cases Hx; lookup_cases Hy; cbn [fst snd spec]; lia
     | chain_edges
     | open_wf; intros Ha k item Hk; try discriminate Ha;
       lookup_cases Hk; read_spec Ha; by simplify_map_eq
     | intros given [=]
     | open_wf; intros k item Hk Hge; lookup_cases Hk; lia
     | open_wf; intros k item idx Hk Hidx;
       lookup_cases Hk; discriminate Hidx
     | open_wf; intros Hs k item Hk _;
       try (specialize (Hs _ eq_refl); cbn [next_loc] in Hs);
       lookup_cases Hk; read_spec Hs; by simplify_map_eq ]).
Qed.

(** Every constructor establishes [build_post]. *)
Lemma build_post_holds `{Collaborators} (c : builder_call) (σ : state) :
  build_post c σ (build c σ).1 (build c σ).2.
Proof.
  destruct c; cbn [build].
  - apply input_post.
  - apply scf_post.
  - apply relax_post.
  - apply nscf_post.
  - apply hybrid_post.
  - apply phonon_post.
  - apply piezo_post.
Qed.

(** ** The properties of the builders *)

(** C1 (as amended).  The graph that a constructor produces is acyclic.  For
    the constructors that take an [initialization_info], every container
    built for a stage of the recipe has, under ['initialization_info'], the
    object supplied at construction, or one new empty mapping when [None] is
    supplied; the ['anaddb'] container that [PiezoElasticFWWorkflow] appends
    has no such entry. *)
Theorem built_graph_acyclic_with_initialization_info `{Collaborators}
    (c : builder_call) (σ : state) :
  acyclic (build c σ).1
  ∧ (∀ given, call_initialization_info c = Some given →
       ∃ stored,
         stored_initialization_info given stored σ (build c σ).2
         ∧ ∀ i item, id_fw (build c σ).1 !! i = Some item →
             i < stage_containers c →
             spec_of (build c σ).2 item.2 !! "initialization_info"
             = Some stored)
  ∧ (∀ i item, id_fw (build c σ).1 !! i = Some item →
       stage_containers c ≤ i →
       spec_of (build c σ).2 item.2 !! "initialization_info" = None).
Proof.
  destruct (build_post_holds c σ)
    as (_ & _ & _ & _ & Hedge & _ & Hii & Hnone & _ & _).
  split_and!; [by apply decreasing_acyclic|done|done].
Qed.

Lemma built_graph_acyclic_with_initialization_info_witness :
  acyclic (@build example_collaborators
             (CallPiezoElasticFW (VStr "scf") (VStr "ddk") (VStr "rf") false
                (Some 0) (VRef 1)) caller_state).1.
Proof.
  exact (proj1 (@built_graph_acyclic_with_initialization_info
                  example_collaborators
                  (CallPiezoElasticFW (VStr "scf") (VStr "ddk") (VStr "rf")
                     false (Some 0) (VRef 1)) caller_state)).
Defined.

(** C1, counterexample.  [PiezoElasticFWWorkflow] is built with the
    [initialization_info] of the caller, the object at location 1: the three
    stage containers carry it, and the fourth container, ['anaddb'], has no
    ['initialization_info']. *)
Lemma piezo_anaddb_without_initialization_info :
  (λ r : Workflow loc * state,
     map (λ item, (name item.2,
                   spec_of r.2 item.2 !! "initialization_info"))
       (id_fw r.1))
    (@build example_collaborators
       (CallPiezoElasticFW (VStr "scf") (VStr "ddk") (VStr "rf") false
          (Some 0) (VRef 1)) caller_state)
  = [("Si_scf", Some (VRef 1)); ("Siddk", Some (VRef 1));
     ("Sistrain", Some (VRef 1)); ("anaddb", None)].
Proof. vm_compute. reflexivity. Qed.

(** C2 (as amended).  With [autoparal=True], every container that a
    constructor produces has [mpi_ncpus] equal to 1 and the short single-core
    queue profile.  The stage index is the one that the constructor writes:
    ['ion_autoparal'] and ['ioncell_autoparal'] for [RelaxFWWorkflow],
    ['scf_autoparal'] and ['gen_ph'] for [PhononFWWorkflow]; the other
    constructors write none, and their stage containers keep the index of the
    caller's mapping, if it has one. *)
Theorem autoparal_single_core_spec `{Collaborators} (c : builder_call)
    (σ : state) (i : nat) (item : Z * Firework loc) :
  call_autoparal c = true →
  allocated_call c σ →
  id_fw (build c σ).1 !! i = Some item →
  spec_of (build c σ).2 item.2 !! "mpi_ncpus" = Some (VInt 1)
  ∧ spec_of (build c σ).2 item.2 !! "_queueadapter"
    = Some get_short_single_core_spec
  ∧ spec_of (build c σ).2 item.2 !! "wf_task_index"
    = match written_index c i with
      | Some s => Some (VStr s)
      | None =>
          if decide (i < stage_containers c)
          then caller_spec c σ !! "wf_task_index" else None
      end
  ∧ (∀ x y s ii d,
        written_index (CallRelaxFW x y true s ii d) 0 = Some "ion_autoparal"
        ∧ written_index (CallRelaxFW x y true s ii d) 1
          = Some "ioncell_autoparal")
  ∧ (∀ x y s ii,
        written_index (CallPhononFW x y true s ii) 0 = Some "scf_autoparal"
        ∧ written_index (CallPhononFW x y true s ii) 1 = Some "gen_ph").
Proof.
  intros Ha Halloc Hitem.
  destruct (build_post_holds c σ)
    as (_ & _ & _ & _ & _ & Hauto & _ & _ & Hwritten & Hkept).
  destruct (Hauto Ha i item Hitem) as [Hcpu Hq].
  split_and!; try done.
  destruct (written_index c i) as [s|] eqn:Hw.
  - by eapply Hwritten.
  - by apply Hkept.
Qed.

Lemma autoparal_single_core_spec_witness :
  spec_of (@build example_collaborators
             (CallHybridOneShotFW (VStr "scf") (VStr "hybrid") true (Some 0)
                VNone) caller_state).2
    {| tasks :=
         [mkTask HybridFWTask [VStr "hybrid"] [("is_autoparal", VBool true)]
            (DepsList ["WFK"]) None];
       spec := 6; name := "Si_hybrid"; fw_id := -2;
       launches := []; archived_launches := [] |}
    !! "mpi_ncpus" = Some (VInt 1).
Proof.
  refine (proj1 (@autoparal_single_core_spec example_collaborators
                   (CallHybridOneShotFW (VStr "scf") (VStr "hybrid") true
                      (Some 0) VNone) caller_state 1 (_, _) _ _ _)).
  - reflexivity.
  - intros l [= <-]. simpl. lia.
  - vm_compute. reflexivity.
Defined.

(** C2, counterexample.  [PhononFWWorkflow] is built with [autoparal=True]:
    the stage index of its second container is ['gen_ph'], which does not
    end in ['autoparal']. *)
Lemma phonon_generation_index_not_autoparal :
  (λ r : Workflow loc * state,
     map (λ item, spec_of r.2 item.2 !! "wf_task_index") (id_fw r.1))
    (@build example_collaborators
       (CallPhononFW (VStr "scf") (VStr "phonons") true None VNone)
       empty_state)
  = [Some (VStr "scf_autoparal"); Some (VStr "gen_ph")]
  ∧ autoparal_tagged "gen_ph" = false.
Proof. split; vm_compute; reflexivity. Qed.

(** C8.  A constructor leaves every object that existed when it was called
    as it was, the caller's mapping among them.  The containers it builds
    hold specifications that are distinct new objects: an update in place of
    the specification of one container changes neither the specification of
    another container nor an object of the caller.  In [RelaxFWWorkflow] the
    first container keeps the stage index ['ion_...'] although the
    constructor goes on to write ['ioncell_...'] for the second. *)
Theorem caller_mapping_copied `{Collaborators} (c : builder_call) (σ : state) :
  (∀ l, l < next_loc σ → heap (build c σ).2 !! l = heap σ !! l)
  ∧ (∀ l, call_spec c = Some l → l < next_loc σ →
          deref (build c σ).2 l = deref σ l)
  ∧ (∀ i j x y,
        id_fw (build c σ).1 !! i = Some x →
        id_fw (build c σ).1 !! j = Some y →
        i ≠ j → spec x.2 ≠ spec y.2)
  ∧ (∀ i j x y (f : dict → dict),
        id_fw (build c σ).1 !! i = Some x →
        id_fw (build c σ).1 !! j = Some y →
        i ≠ j →
        spec_of (modify_dict f (spec x.2) (build c σ).2).2 y.2
        = spec_of (build c σ).2 y.2)
  ∧ (∀ i x (f : dict → dict) l,
        id_fw (build c σ).1 !! i = Some x →
        l < next_loc σ →
        heap (modify_dict f (spec x.2) (build c σ).2).2 !! l = heap σ !! l)
  ∧ (∀ x y a s ii d,
        c = CallRelaxFW x y a s ii d →
        ∃ ion_fw ioncell_fw,
          id_fw (build c σ).1 = [ion_fw; ioncell_fw]
          ∧ spec_of (build c σ).2 ion_fw.2 !! "wf_task_index"
            = Some (VStr ("ion_" +:+ start_task_index a))
          ∧ spec_of (build c σ).2 ioncell_fw.2 !! "wf_task_index"
            = Some (VStr ("ioncell_" +:+ start_task_index a))).
Proof.
  destruct (build_post_holds c σ)
    as (_ & Hframe & Hids & Hinj & _ & _ & _ & _ & Hwritten & _).
  split_and!.
  - done.
  - intros l _ Hl. unfold deref. by rewrite Hframe.
  - intros i j x y Hx Hy Hne Heq. apply Hne. by eapply Hinj.
  - intros i j x y f Hx Hy Hne. unfold spec_of, deref, modify_dict.
    cbn [snd heap]. rewrite lookup_alter_ne; [done|].
    intros Heq. apply Hne. by eapply Hinj.
  - intros i x f l Hx Hl. unfold modify_dict. cbn [snd heap].
    destruct (Hids i x Hx) as (_ & _ & Hlo & _).
    rewrite lookup_alter_ne by (unfold loc in *; lia). by apply Hframe.
  - intros x y a s ii d ->.
    assert (∃ v w, id_fw (build (CallRelaxFW x y a s ii d) σ).1 = [v; w])
      as (v & w & Hvw).
    { cbn [build]. unfold RelaxFWWorkflow.init. cbv zeta.
      rewrite base_spec_bind.
      destruct (base_spec_run a s ii σ) as (l & σ1 & ? & ? & Hrun & _).
      rewrite (M_bind_run _ _ _ _ _ Hrun). by eexists _, _. }
    exists v, w. split; [done|]. split.
    + apply (Hwritten 0); [by rewrite Hvw|done].
    + apply (Hwritten 1); [by rewrite Hvw|done].
Qed.

Lemma caller_mapping_copied_witness :
  deref (@build example_collaborators
           (CallRelaxFW (VStr "ion") (VStr "ioncell") true (Some 0) (VRef 1)
              None) caller_state).2 0
  = deref caller_state 0.
Proof.
  refine (proj1 (proj2 (@caller_mapping_copied example_collaborators
                          (CallRelaxFW (VStr "ion") (VStr "ioncell") true
                             (Some 0) (VRef 1) None) caller_state)) 0 _ _).
  - reflexivity.
  - simpl. lia.
Defined.

(** The caller's mapping of [caller_state] after a dry-run relaxation has
    been built from it, and the two specifications built from it. *)
Example relax_build_leaves_caller_mapping :
  deref (@build example_collaborators
           (CallRelaxFW (VStr "ion") (VStr "ioncell") true (Some 0) (VRef 1)
              None) caller_state).2 0
  = <["wf_task_index" := VStr "mine"]> (<["mpi_ncpus" := VInt 16]> ∅)
  ∧ (λ r, map (λ item, spec_of r.2 item.2 !! "wf_task_index") (id_fw r.1))
      (@build example_collaborators
         (CallRelaxFW (VStr "ion") (VStr "ioncell") true (Some 0) (VRef 1)
            None) caller_state)
    = [Some (VStr "ion_autoparal"); Some (VStr "ioncell_autoparal")].
Proof. split; vm_compute; reflexivity. Qed.

(** ** More on the queries of [RelaxFWWorkflow] *)

Lemma ioncell_scan_below (l : list (Z * Firework dict)) (st : Z * option Z)
    (n : Z) :
  forallb sliceable l = true →
  (∀ x m, x ∈ l → ioncell_index x.2 = Some m → (m < n)%Z) →
  (st.1 < n)%Z →
  ∃ st', for_each RelaxFWWorkflow.ioncell_scan_step st l = Ok st'
         ∧ (st'.1 < n)%Z.
Proof.
  revert st. induction l as [|x l IH]; intros st Hsl Hlt Hst.
  - by exists st.
  - simpl in Hsl. apply andb_prop in Hsl as [Hx Hl].
    cbn [for_each]. rewrite ioncell_scan_step_index by done. simpl.
    apply IH; [done|intros y m Hy; apply Hlt; set_solver|].
    destruct (ioncell_index x.2) as [m|] eqn:Hm; [|done].
    destruct (m >? st.1)%Z; [|done]. simpl. eapply Hlt; [|done]. set_solver.
Qed.

Lemma ioncell_scan_keep (l : list (Z * Firework dict)) (st : Z * option Z) :
  forallb sliceable l = true →
  (∀ x m, x ∈ l → ioncell_index x.2 = Some m → (m ≤ st.1)%Z) →
  for_each RelaxFWWorkflow.ioncell_scan_step st l = Ok st.
Proof.
  induction l as [|x l IH]; intros Hsl Hle; [done|].
  simpl in Hsl. apply andb_prop in Hsl as [Hx Hl].
  cbn [for_each]. rewrite ioncell_scan_step_index by done.
  assert (match ioncell_index x.2 with
          | Some n => if (n >? st.1)%Z then (n, Some x.1) else st
          | None => st
          end = st) as ->.
  { destruct (ioncell_index x.2) as [m|] eqn:Hm; [|done].
    destruct (Z.gtb_spec m st.1); [|done].
    assert (m ≤ st.1)%Z by (eapply Hle; [|done]; set_solver). lia. }
  simpl. apply IH; [done|]. intros y m Hy. apply Hle. set_solver.
Qed.

(** The scan keeps the first container that has the largest number. *)
Lemma ioncell_scan_first_maximal (pre post : list (Z * Firework dict))
    (item : Z * Firework dict) (n : Z) :
  forallb sliceable (pre ++ item :: post) = true →
  ioncell_index item.2 = Some n →
  (-1 < n)%Z →
  (∀ x m, x ∈ pre → ioncell_index x.2 = Some m → (m < n)%Z) →
  (∀ x m, x ∈ post → ioncell_index x.2 = Some m → (m ≤ n)%Z) →
  for_each RelaxFWWorkflow.ioncell_scan_step ((-1)%Z, None)
    (pre ++ item :: post)
  = Ok (n, Some item.1).
Proof.
  intros Hsl Hn Hpos Hpre Hpost.
  rewrite forallb_app in Hsl. apply andb_prop in Hsl as [Hsl1 Hsl2].
  simpl in Hsl2. apply andb_prop in Hsl2 as [Hsl2 Hsl3].
  rewrite for_each_app.
  destruct (ioncell_scan_below pre (-1, None)%Z n Hsl1 Hpre Hpos)
    as (st & -> & Hst).
  simpl. rewrite ioncell_scan_step_index by done. rewrite Hn.
  destruct (Z.gtb_spec n st.1); [|lia]. simpl.
  by apply ioncell_scan_keep.
Qed.

(** X1.  Among the containers whose stage index begins with ['ioncell_'] and
    ends in an integer greater than -1, [get_final_structure_and_history]
    reads the first one, in the order of iteration, that has the largest
    number: a later container with the same number does not replace it. *)
Theorem first_maximal_ioncell_is_read `{Collaborators} (wf : Workflow dict)
    (pre post : list (Z * Firework dict)) (item : Z * Firework dict) (n : Z) :
  metadata_ok wf →
  forallb sliceable (id_fw wf) = true →
  NoDup (id_fw wf).*1 →
  id_fw wf = pre ++ item :: post →
  ioncell_index item.2 = Some n →
  (-1 < n)%Z →
  (∀ x m, x ∈ pre → ioncell_index x.2 = Some m → (m < n)%Z) →
  (∀ x m, x ∈ post → ioncell_index x.2 = Some m → (m ≤ n)%Z) →
  RelaxFWWorkflow.get_final_structure_and_history wf
  = RelaxFWWorkflow.extract_structure_and_history item.2.
Proof.
  intros Hmeta Hsl Hnd Hsplit Hn Hpos Hpre Hpost.
  unfold RelaxFWWorkflow.get_final_structure_and_history,
    RelaxFWWorkflow.ioncell_scan.
  rewrite check_metadata_ok by done. simpl.
  rewrite Hsplit in Hsl. rewrite Hsplit at 1.
  rewrite (ioncell_scan_first_maximal pre post item n) by done. simpl.
  rewrite (assoc_get_NoDup _ _ item.2 Hnd); [done|].
  rewrite Hsplit. destruct item. set_solver.
Qed.

Lemma first_maximal_ioncell_is_read_witness :
  @RelaxFWWorkflow.get_final_structure_and_history example_collaborators
    tie_example
  = @RelaxFWWorkflow.extract_structure_and_history example_collaborators
      (example_container 7 "ioncell_2" 4 "/run/7" 25%float).2.
Proof.
  apply (@first_maximal_ioncell_is_read example_collaborators tie_example
           [example_container 1 "ion_1" 4 "/run/1" 20%float]
           [example_container 5 "ioncell_2" 4 "/run/5" 26%float;
            example_container 2 "ioncell_1" 4 "/run/2" 27%float]
           (example_container 7 "ioncell_2" 4 "/run/7" 25%float) 2).
  - split; reflexivity.
  - reflexivity.
  - apply (bool_decide_unpack _). vm_compute. reflexivity.
  - reflexivity.
  - reflexivity.
  - lia.
  - intros x m Hx%list_elem_of_In. simpl in Hx. destruct Hx as [<-|[]].
    vm_compute. discriminate.
  - intros x m Hx%list_elem_of_In. simpl in Hx.
    destruct Hx as [<-|[<-|[]]]; vm_compute; intros [= <-]; discriminate.
Defined.

Lemma forallb_Permutation {A} (f : A → bool) (l l' : list A) :
  l ≡ₚ l' → forallb f l = forallb f l'.
Proof.
  induction 1 as [|x l l' _ IH|x y l|l l' l'' _ IH1 _ IH2]; simpl.
  - done.
  - by rewrite IH.
  - by destruct (f x), (f y).
  - congruence.
Qed.

(** X2.  When no two containers stand for the same number, the result of
    [get_final_structure_and_history] does not depend on the order in which
    the containers are iterated. *)
Theorem final_structure_order_independent `{Collaborators}
    (wf wf' : Workflow dict) :
  metadata wf = metadata wf' →
  id_fw wf ≡ₚ id_fw wf' →
  forallb sliceable (id_fw wf) = true →
  NoDup (id_fw wf).*1 →
  (∀ x y n, x ∈ id_fw wf → y ∈ id_fw wf →
            ioncell_index x.2 = Some n → ioncell_index y.2 = Some n →
            (-1 < n)%Z → x = y) →
  RelaxFWWorkflow.get_final_structure_and_history wf
  = RelaxFWWorkflow.get_final_structure_and_history wf'.
Proof.
  intros Hmeta Hperm Hsl Hnd Huniq.
  assert (forallb sliceable (id_fw wf') = true) as Hsl'.
  { by rewrite <- (forallb_Permutation _ _ _ Hperm). }
  assert (NoDup (id_fw wf').*1) as Hnd'.
  { by rewrite <- Hperm. }
  unfold RelaxFWWorkflow.get_final_structure_and_history,
    RelaxFWWorkflow.check_metadata.
  rewrite <- Hmeta.
  destruct (getitem (metadata wf) "workflow_class") as [c|]; [|done]. simpl.
  destruct (py_assert _); [|done]. simpl.
  destruct (getitem (metadata wf) "workflow_module") as [m|]; [|done]. simpl.
  destruct (py_assert _); [|done]. simpl.
  destruct (ioncell_scan_inv wf Hsl) as ([k sel] & -> & Hmax & Hsel).
  destruct (ioncell_scan_inv wf' Hsl') as ([k' sel'] & -> & Hmax' & Hsel').
  simpl in *.
  assert (∀ x, x ∈ id_fw wf ↔ x ∈ id_fw wf') as Hmem.
  { intros x. by rewrite Hperm. }
  destruct sel as [id|], sel' as [id'|].
  - destruct Hsel as (fw & Hfw & Hk & Hpos).
    destruct Hsel' as (fw' & Hfw' & Hk' & Hpos').
    assert (k = k') as <-.
    { pose proof (Hmax' _ _ (proj1 (Hmem _) Hfw) Hk).
      pose proof (Hmax _ _ (proj2 (Hmem _) Hfw') Hk'). simpl in *. lia. }
    assert ((id, fw) = (id', fw')) as Heq.
    { apply (Huniq _ _ k); try done. by apply Hmem. }
    injection Heq as <- <-.
    rewrite (assoc_get_NoDup _ _ fw Hnd Hfw).
    by rewrite (assoc_get_NoDup _ _ fw Hnd' Hfw').
  - destruct Hsel as (fw & Hfw & Hk & Hpos). subst k'.
    pose proof (Hmax' _ _ (proj1 (Hmem _) Hfw) Hk). simpl in *. lia.
  - destruct Hsel' as (fw' & Hfw' & Hk' & Hpos'). subst k.
    pose proof (Hmax _ _ (proj2 (Hmem _) Hfw') Hk'). simpl in *. lia.
  - done.
Qed.

Lemma final_structure_order_independent_witness :
  @RelaxFWWorkflow.get_final_structure_and_history example_collaborators
    relax_example
  = @RelaxFWWorkflow.get_final_structure_and_history example_collaborators
      (with_containers (reverse (id_fw relax_example)) relax_example).
Proof.
  apply (@final_structure_order_independent example_collaborators).
  - reflexivity.
  - unfold with_containers. cbn [id_fw]. by rewrite reverse_Permutation.
  - vm_compute. reflexivity.
  - apply (bool_decide_unpack _). vm_compute. reflexivity.
  - intros x y n Hx%list_elem_of_In Hy%list_elem_of_In.
    unfold relax_example in Hx, Hy. cbn [id_fw In] in Hx, Hy.
    destruct Hx as [<-|[<-|[<-|[<-|[]]]]];
      destruct Hy as [<-|[<-|[<-|[<-|[]]]]];
      intros H1 H2 _; vm_compute in H1; vm_compute in H2;
      try discriminate H1;
      (injection H1 as <-; first [discriminate H2|reflexivity]).
Defined.

(** *** The accounting of compute time: what it reads *)

Lemma runtime_step_agree (t : float) (x y : Z * Firework dict) :
  spec x.2 = spec y.2 →
  last (launches x.2) = last (launches y.2) →
  RelaxFWWorkflow.runtime_step t x = RelaxFWWorkflow.runtime_step t y.
Proof.
  destruct x as [i x], y as [j y]. simpl. intros Hs Hl.
  unfold RelaxFWWorkflow.runtime_step, list_last. by rewrite Hs, Hl.
Qed.

(** X3.  [get_runtime_secs] reads nothing of a container but its
    specification and its last active launch: archived launches, earlier
    launches, tasks, names and ids do not change the total. *)
Theorem runtime_secs_reads_spec_and_last_launch (wf wf' : Workflow dict) :
  metadata wf = metadata wf' →
  Forall2 (λ x y, spec x.2 = spec y.2
                  ∧ last (launches x.2) = last (launches y.2))
    (id_fw wf) (id_fw wf') →
  RelaxFWWorkflow.get_runtime_secs wf = RelaxFWWorkflow.get_runtime_secs wf'.
Proof.
  intros Hmeta Hall.
  unfold RelaxFWWorkflow.get_runtime_secs, RelaxFWWorkflow.check_metadata.
  rewrite <- Hmeta.
  destruct (getitem (metadata wf) "workflow_class") as [c|]; [|done]. simpl.
  destruct (py_assert _); [|done]. simpl.
  destruct (getitem (metadata wf) "workflow_module") as [m|]; [|done]. simpl.
  destruct (py_assert _); [|done]. simpl.
  generalize 0%float as t.
  induction Hall as [|x y l l' [Hs Hl] _ IH]; intros t; [done|].
  cbn [for_each]. rewrite (runtime_step_agree t x y Hs Hl).
  destruct (RelaxFWWorkflow.runtime_step t y); simpl; [apply IH|done].
Qed.

Lemma runtime_secs_reads_spec_and_last_launch_witness :
  RelaxFWWorkflow.get_runtime_secs relax_example
  = RelaxFWWorkflow.get_runtime_secs
      (with_containers (map bare_container (id_fw relax_example))
         relax_example).
Proof.
  apply runtime_secs_reads_spec_and_last_launch.
  - reflexivity.
  - simpl. repeat constructor.
Defined.

(** *** The accounting of compute time: what it needs and what it skips *)

Lemma runtime_step_uncounted (t : float) (item : Z * Firework dict) :
  uncounted item = true → RelaxFWWorkflow.runtime_step t item = Ok t.
Proof.
  destruct item as [i fw].
  unfold uncounted, RelaxFWWorkflow.runtime_step, autoparal_tagged.
  cbn [fst snd].
  destruct (spec fw !! "wf_task_index") as [[]|]; try done.
  intros Hs%negb_true_iff.
  apply orb_false_iff in Hs as [Hs Hc].
  apply orb_false_iff in Hs as [Ha Hi].
  by rewrite Ha, Hi, Hc.
Qed.

Lemma runtime_step_unlaunched (t : float) (item : Z * Firework dict)
    (s : string) :
  spec item.2 !! "wf_task_index" = Some (VStr s) →
  uncounted item = false →
  launches item.2 = [] →
  RelaxFWWorkflow.runtime_step t item = Raise IndexError.
Proof.
  destruct item as [i fw].
  unfold uncounted, RelaxFWWorkflow.runtime_step, autoparal_tagged.
  cbn [fst snd]. intros -> Hs%negb_false_iff ->.
  destruct (String.eqb (str_suffix 9 s) "autoparal"); [done|].
  destruct (String.eqb (str_prefix 4 s) "ion_"); [done|].
  destruct (String.eqb (str_prefix 8 s) "ioncell_"); done.
Qed.

(** X4.  A container whose stage index ends in ['autoparal'] or begins with
    ['ion_'] or ['ioncell_'] must have an active launch: when it has none,
    [get_runtime_secs] raises [IndexError], whatever its archived launches
    are, provided that the containers iterated before it were accounted for
    without error. *)
Theorem runtime_secs_needs_active_launch (wf : Workflow dict)
    (pre post : list (Z * Firework dict)) (item : Z * Firework dict)
    (s : string) :
  metadata_ok wf →
  id_fw wf = pre ++ item :: post →
  is_ok (for_each RelaxFWWorkflow.runtime_step 0%float pre) = true →
  spec item.2 !! "wf_task_index" = Some (VStr s) →
  uncounted item = false →
  launches item.2 = [] →
  RelaxFWWorkflow.get_runtime_secs wf = Raise IndexError.
Proof.
  intros Hmeta Hsplit Hpre Hs Hu Hl. unfold RelaxFWWorkflow.get_runtime_secs.
  rewrite check_metadata_ok by done. simpl.
  rewrite Hsplit, for_each_app.
  destruct (for_each RelaxFWWorkflow.runtime_step 0%float pre) as [t|];
    [|done].
  simpl.
  by rewrite (runtime_step_unlaunched t item s).
Qed.

Lemma runtime_secs_needs_active_launch_witness :
  RelaxFWWorkflow.get_runtime_secs unlaunched_example = Raise IndexError.
Proof.
  apply (runtime_secs_needs_active_launch unlaunched_example
           [example_container 4 "ion_autoparal" 1 "/run/4" 2%float]
           [example_container 2 "ioncell_1" 4 "/run/2" 25%float]
           (1%Z,
            {| tasks := [mkTask RelaxFWTask [VStr "input"] [] NoDeps None];
               spec := <["wf_task_index" := VStr "ion_1"]> ∅;
               name := "Unnamed FW"; fw_id := 1;
               launches := [];
               archived_launches := [mkLaunch "/run/1" (Some 3%float)] |})
           "ion_1").
  - split; reflexivity.
  - reflexivity.
  - vm_compute. reflexivity.
  - reflexivity.
  - vm_compute. reflexivity.
  - reflexivity.
Defined.

Lemma for_each_runtime_skip (l : list (Z * Firework dict)) (t : float) :
  for_each RelaxFWWorkflow.runtime_step t
    (List.filter (λ x, negb (uncounted x)) l)
  = for_each RelaxFWWorkflow.runtime_step t l.
Proof.
  revert t. induction l as [|x l IH]; intros t; [done|].
  cbn [List.filter for_each].
  destruct (uncounted x) eqn:Hx; cbn [negb].
  - rewrite (runtime_step_uncounted t x Hx). simpl. apply IH.
  - cbn [for_each].
    destruct (RelaxFWWorkflow.runtime_step t x); simpl; [apply IH|done].
Qed.

(** X5.  [get_runtime_secs] passes over every container that has no stage
    index, or whose stage index is a list or a string that neither ends in
    ['autoparal'] nor begins with ['ion_'] or ['ioncell_']: removing these
    containers from the graph changes neither the total nor the error. *)
Theorem runtime_secs_skips_uncounted (wf : Workflow dict) :
  RelaxFWWorkflow.get_runtime_secs
    (with_containers (List.filter (λ x, negb (uncounted x)) (id_fw wf)) wf)
  = RelaxFWWorkflow.get_runtime_secs wf.
Proof.
  unfold RelaxFWWorkflow.get_runtime_secs, RelaxFWWorkflow.check_metadata,
    with_containers.
  cbn [metadata id_fw].
  destruct (getitem (metadata wf) "workflow_class") as [c|]; [|done]. simpl.
  destruct (py_assert _); [|done]. simpl.
  destruct (getitem (metadata wf) "workflow_module") as [m|]; [|done]. simpl.
  destruct (py_assert _); [|done]. simpl.
  apply for_each_runtime_skip.
Qed.

(** ** The queries of [PiezoElasticFWWorkflow] *)

Lemma piezo_check_metadata_ok (wf : Workflow dict) :
  piezo_metadata_ok wf → PiezoElasticFWWorkflow.check_metadata wf = Ok tt.
Proof.
  intros [Hc Hm]. unfold PiezoElasticFWWorkflow.check_metadata, getitem.
  by rewrite Hc, Hm.
Qed.

Lemma anaddb_scan_app (l1 l2 : list (Z * Firework dict)) (st : option Z) :
  foldl (λ final_fw_id item,
           if String.eqb (name item.2) "anaddb" then Some item.1
           else final_fw_id) st (l1 ++ l2)
  = foldl (λ final_fw_id item,
             if String.eqb (name item.2) "anaddb" then Some item.1
             else final_fw_id)
      (foldl (λ final_fw_id item,
                if String.eqb (name item.2) "anaddb" then Some item.1
                else final_fw_id) st l1) l2.
Proof. apply foldl_app. Qed.

Lemma anaddb_scan_none (l : list (Z * Firework dict)) (st : option Z) :
  (∀ x, x ∈ l → name x.2 ≠ "anaddb") →
  foldl (λ final_fw_id item,
           if String.eqb (name item.2) "anaddb" then Some item.1
           else final_fw_id) st l = st.
Proof.
  revert st. induction l as [|x l IH]; intros st Hl; [done|].
  cbn [foldl].
  destruct (String.eqb_spec (name x.2) "anaddb") as [E|_].
  - exfalso. eapply Hl; [|done]. set_solver.
  - apply IH. intros y Hy. apply Hl. set_solver.
Qed.

Lemma anaddb_scan_last (wf : Workflow dict)
    (pre post : list (Z * Firework dict)) (item : Z * Firework dict) :
  id_fw wf = pre ++ item :: post →
  name item.2 = "anaddb" →
  (∀ x, x ∈ post → name x.2 ≠ "anaddb") →
  PiezoElasticFWWorkflow.anaddb_scan wf = Some item.1.
Proof.
  intros Hsplit Hname Hpost. unfold PiezoElasticFWWorkflow.anaddb_scan.
  rewrite Hsplit, anaddb_scan_app. cbn [foldl]. rewrite Hname. cbn.
  by apply anaddb_scan_none.
Qed.

Section PiezoQueries.
Context `{Collaborators} `{AuxCollaborators}.

(** X6.  [get_all_elastic_tensors] computes what
    [get_elastic_tensor_and_history] computes: the same result or the same
    error on every graph. *)
Theorem all_elastic_tensors_is_elastic_tensor_and_history
    (wf : Workflow dict) :
  PiezoElasticFWWorkflow.get_all_elastic_tensors wf
  = PiezoElasticFWWorkflow.get_elastic_tensor_and_history wf.
Proof.
  unfold PiezoElasticFWWorkflow.get_all_elastic_tensors,
    PiezoElasticFWWorkflow.get_elastic_tensor_and_history.
  destruct (PiezoElasticFWWorkflow.check_metadata wf); [|done]. simpl.
  destruct (PiezoElasticFWWorkflow.anaddb_scan wf) as [id|]; [|done].
  destruct (assoc_get (id_fw wf) id) as [myfw|]; done.
Qed.


(** X8.  On a graph that passes the two assertions and has no container
    named ['anaddb'], [get_elastic_tensor_and_history] raises the
    [RuntimeError] ['Final anaddb task not found ...']. *)
Theorem missing_anaddb_is_fatal (wf : Workflow dict) :
  piezo_metadata_ok wf →
  (∀ x, x ∈ id_fw wf → name x.2 ≠ "anaddb") →
  PiezoElasticFWWorkflow.get_elastic_tensor_and_history wf
  = Raise (RuntimeError "Final anaddb task not found ...").
Proof.
  intros Hmeta Hno.
  unfold PiezoElasticFWWorkflow.get_elastic_tensor_and_history.
  rewrite piezo_check_metadata_ok by done. simpl.
  unfold PiezoElasticFWWorkflow.anaddb_scan. by rewrite anaddb_scan_none.
Qed.

(** X9.  No graph serves the queries of both classes: when a query of
    [RelaxFWWorkflow] returns a result, the queries of
    [PiezoElasticFWWorkflow] raise [AssertionError] on the same graph. *)
Theorem relax_graph_rejected_by_piezo_queries (wf : Workflow dict) :
  is_ok (RelaxFWWorkflow.get_final_structure_and_history wf) = true
  ∨ is_ok (RelaxFWWorkflow.get_runtime_secs wf) = true →
  PiezoElasticFWWorkflow.get_elastic_tensor_and_history wf
  = Raise AssertionError
  ∧ PiezoElasticFWWorkflow.get_all_elastic_tensors wf = Raise AssertionError.
Proof.
  intros Hok.
  assert (RelaxFWWorkflow.check_metadata wf = Ok tt) as Hrelax.
  { destruct Hok as [Hok|Hok];
      [unfold RelaxFWWorkflow.get_final_structure_and_history in Hok
      |unfold RelaxFWWorkflow.get_runtime_secs in Hok];
      by destruct (RelaxFWWorkflow.check_metadata wf) as [[]|]. }
  assert (PiezoElasticFWWorkflow.check_metadata wf = Raise AssertionError)
    as Hpiezo.
  { revert Hrelax.
    unfold RelaxFWWorkflow.check_metadata,
      PiezoElasticFWWorkflow.check_metadata.
    destruct (getitem (metadata wf) "workflow_class") as [c|]; [|done].
    simpl. unfold val_eq_str. destruct c as [| | | |c| |]; try done.
    destruct (String.eqb_spec c RelaxFWWorkflow.workflow_class) as [->|];
      done. }
  unfold PiezoElasticFWWorkflow.get_elastic_tensor_and_history,
    PiezoElasticFWWorkflow.get_all_elastic_tensors.
  by rewrite Hpiezo.
Qed.

End PiezoQueries.


Lemma missing_anaddb_is_fatal_witness :
  @PiezoElasticFWWorkflow.get_elastic_tensor_and_history example_collaborators
    example_aux_collaborators no_anaddb_example
  = Raise (RuntimeError "Final anaddb task not found ...").
Proof.
  apply (@missing_anaddb_is_fatal example_collaborators
           example_aux_collaborators no_anaddb_example).
  - split; reflexivity.
  - intros x Hx%list_elem_of_In. simpl in Hx.
    destruct Hx as [<-|[<-|[]]]; simpl; discriminate.
Defined.

Lemma relax_graph_rejected_by_piezo_queries_witness :
  @PiezoElasticFWWorkflow.get_elastic_tensor_and_history example_collaborators
    example_aux_collaborators relax_example = Raise AssertionError
  ∧ @PiezoElasticFWWorkflow.get_all_elastic_tensors example_collaborators
      example_aux_collaborators relax_example = Raise AssertionError.
Proof.
  apply (@relax_graph_rejected_by_piezo_queries example_collaborators
           example_aux_collaborators relax_example).
  right. vm_compute. reflexivity.
Defined.

(** ** The single-core profile and the auxiliary containers *)

Lemma str_chars_cons (c : ascii) (s : string) :
  ∃ w ws, str_chars (String c s) = String c w :: ws.
Proof.
  destruct s as [|c' s']; [by exists EmptyString, []|].
  cbn [str_chars]. destruct (is_continuation c').
  - destruct (match s' with
              | EmptyString => [String c' EmptyString]
              | String c'' _ =>
                  if is_continuation c'' then
                    match str_chars s' with
                    | w :: ws => String c' w :: ws
                    | [] => [String c' EmptyString]
                    end
                  else String c' EmptyString :: str_chars s'
              end) as [|w ws]; by eexists _, _.
  - by eexists _, _.
Qed.

Lemma str_prefix_nonempty (n : nat) (s t : string) (c : ascii) :
  str_prefix (S n) (s +:+ String c t) ≠ "".
Proof.
  unfold str_prefix.
  assert (∃ a u, s +:+ String c t = String a u) as (a & u & ->).
  { destruct s; by eexists _, _. }
  destruct (str_chars_cons a u) as (w & ws & ->). done.
Qed.

Lemma name_or_prefix (n : nat) (s t : string) (c : ascii) :
  name_or (Some (str_prefix (S n) (s +:+ String c t))) "Unnamed FW"
  = str_prefix (S n) (s +:+ String c t).
Proof.
  unfold name_or.
  destruct (String.eqb_spec (str_prefix (S n) (s +:+ String c t)) "")
    as [E|]; [|done].
  by apply str_prefix_nonempty in E.
Qed.

(** X10.  [set_short_single_core_to_spec] returns a new object and leaves
    every object that exists, the caller's mapping among them, as it is.  The
    new object has the entries of the caller's mapping, except that
    ['mpi_ncpus'] is 1 and ['_queueadapter'] is the short single-core
    profile, whatever the caller's mapping has for these keys. *)
Theorem single_core_spec_is_new_object `{Collaborators} (spec : option loc)
    (σ : state) :
  let d := match spec with Some l0 => deref σ l0 | None => ∅ end in
  let r := set_short_single_core_to_spec spec σ in
  next_loc σ ≤ r.1 ∧ r.1 < next_loc r.2
  ∧ (∀ l, l < next_loc σ → heap r.2 !! l = heap σ !! l)
  ∧ fwid_ctr r.2 = fwid_ctr σ
  ∧ deref r.2 r.1 !! "mpi_ncpus" = Some (VInt 1)
  ∧ deref r.2 r.1 !! "_queueadapter" = Some get_short_single_core_spec
  ∧ (∀ k, k ≠ "mpi_ncpus" → k ≠ "_queueadapter" →
          deref r.2 r.1 !! k = d !! k).
Proof.
  destruct σ as [h n c]. destruct spec as [l0|]; run_monad.
  all: split_and!; try lia; try done.
  all: try (intros; by heap_norm).
  all: heap_norm; cbn [id]; intros; by simplify_map_eq.
Qed.

(** X11.  [append_fw] with [short_single_spec=True] changes the
    specification of the container in place: ['mpi_ncpus'] becomes 1 and
    ['_queueadapter'] the short single-core profile, the other entries stay,
    and so does every other object that exists.  The graph is the one that
    [append_fw_to_wf] makes of the container, as without the option. *)
Theorem append_fw_short_single_spec `{Collaborators} (fw : Firework loc)
    (wf : Workflow loc) (σ : state) :
  spec fw < next_loc σ →
  is_Some (heap σ !! spec fw) →
  let r := append_fw fw true wf σ in
  r.1 = (append_fw fw false wf σ).1
  ∧ deref r.2 (spec fw) !! "mpi_ncpus" = Some (VInt 1)
  ∧ deref r.2 (spec fw) !! "_queueadapter" = Some get_short_single_core_spec
  ∧ (∀ k, k ≠ "mpi_ncpus" → k ≠ "_queueadapter" →
          deref r.2 (spec fw) !! k = deref σ (spec fw) !! k)
  ∧ (∀ l, l < next_loc σ → l ≠ spec fw → heap r.2 !! l = heap σ !! l).
Proof.
  destruct σ as [h n c]. cbn [next_loc heap]. intros Hlt [d Hd].
  unfold append_fw. run_monad. heap_norm. rewrite Hd.
  cbn [id fmap option_fmap option_map default].
  split_and!.
  - done.
  - apply lookup_union_Some_l. by simplify_map_eq.
  - apply lookup_union_Some_l. by simplify_map_eq.
  - intros k Hk1 Hk2. apply lookup_union_r. by simplify_map_eq.
  - intros l Hl Hne. rewrite lookup_alter_ne by done. by heap_norm.
Qed.

Lemma append_fw_short_single_spec_witness :
  deref
    (@append_fw example_collaborators
       {| tasks := []; spec := 0; name := "extra"; fw_id := (-1)%Z;
          launches := []; archived_launches := [] |}
       true
       {| id_fw := []; links := []; wf_name := "unnamed WF";
          metadata := ∅ |}
       caller_state).2 0
  !! "mpi_ncpus" = Some (VInt 1).
Proof.
  refine (proj1 (proj2
    (@append_fw_short_single_spec example_collaborators
       {| tasks := []; spec := 0; name := "extra"; fw_id := (-1)%Z;
          launches := []; archived_launches := [] |}
       {| id_fw := []; links := []; wf_name := "unnamed WF";
          metadata := ∅ |}
       caller_state _ _))).
  - simpl. lia.
  - vm_compute. eexists. reflexivity.
Defined.

(** X12.  [add_final_cleanup] appends, with [append_fw_to_wf], a container
    that is numbered next, is named by the first 15 characters of the name of
    the workflow followed by ['_cleanup'], and has a specification of its
    own with three entries: the single-core profile and the priority 100.
    It has neither an ['initialization_info'] nor a ['wf_task_index'].  The
    objects that exist stay as they are. *)
Theorem final_cleanup_container `{Collaborators}
    (out_exts : option (list string)) (wf : Workflow loc) (σ : state) :
  let r := add_final_cleanup out_exts wf σ in
  let task :=
    mkTask FinalCleanUpTask []
      [("out_exts", VList (VStr <$> default ["WFK"] out_exts))] NoDeps None in
  ∃ fw : Firework loc,
    r.1 = append_fw_to_wf fw wf
    ∧ tasks fw = [task]
    ∧ fw_id fw = (fwid_ctr σ - 1)%Z
    ∧ name fw = str_prefix 15 (wf_name wf +:+ "_cleanup")
    ∧ next_loc σ ≤ spec fw
    ∧ deref r.2 (spec fw)
      = <["_priority" := VInt 100]>
          (<["_queueadapter" := get_short_single_core_spec]>
             (<["mpi_ncpus" := VInt 1]> ∅))
    ∧ (∀ l, l < next_loc σ → heap r.2 !! l = heap σ !! l).
Proof.
  destruct σ as [h n c]. unfold add_final_cleanup. run_monad.
  eexists. split; [reflexivity|]. cbn [tasks fw_id name spec].
  rewrite name_or_prefix.
  split_and!; try done.
  - lia.
  - by heap_norm.
  - intros l Hl. by heap_norm.
Qed.

(** X13.  [add_db_insert_and_cleanup] appends one container with two tasks,
    the insertion in the database and the clean-up, numbered next and named
    by the first 15 characters of the name of the workflow followed by
    ['_insclnup'].  The insertion task holds the caller's [insertion_data]
    object itself; without one it holds a new object with the single entry
    ['structure'].  The specification is the single-core profile with the
    description of the database, and the objects that exist stay as they
    are. *)
Theorem db_insert_and_cleanup_container `{Collaborators} `{AuxCollaborators}
    (mongo_database : val) (out_exts : option (list string))
    (insertion_data : option loc) (criteria : val) (wf : Workflow loc)
    (σ : state) :
  let r :=
    add_db_insert_and_cleanup mongo_database out_exts insertion_data criteria
      wf σ in
  ∃ (fw : Firework loc) (data : loc),
    let insert_task :=
      mkTask DatabaseInsertTask []
        [("insertion_data", VRef data); ("criteria", criteria)] NoDeps None in
    let cleanup_task :=
      mkTask FinalCleanUpTask []
        [("out_exts", VList (VStr <$> default ["WFK"] out_exts))]
        NoDeps None in
    r.1 = append_fw_to_wf fw wf
    ∧ tasks fw = [insert_task; cleanup_task]
    ∧ match insertion_data with
      | Some l => data = l
      | None =>
          next_loc σ ≤ data
          ∧ deref r.2 data
            = <["structure" := VStr "get_final_structure_and_history"]> ∅
      end
    ∧ fw_id fw = (fwid_ctr σ - 1)%Z
    ∧ name fw = str_prefix 15 (wf_name wf +:+ "_insclnup")
    ∧ next_loc σ ≤ spec fw
    ∧ deref r.2 (spec fw)
      = <["mongo_database" := mongo_as_dict mongo_database]>
          (<["_queueadapter" := get_short_single_core_spec]>
             (<["mpi_ncpus" := VInt 1]> ∅))
    ∧ (∀ l, l < next_loc σ → heap r.2 !! l = heap σ !! l).
Proof.
  destruct σ as [h n c]. unfold add_db_insert_and_cleanup.
  destruct insertion_data as [l0|]; run_monad.
  all: do 2 eexists; split; [reflexivity|]; cbn [tasks fw_id name spec].
  all: rewrite name_or_prefix.
  all: split_and!; try done; try lia.
  all: try (intros l Hl); by heap_norm.
Qed.

(** X14.  [add_mrgddb_task] appends a container named ['mrgddb'] with the
    single task that merges the DDB files; its specification is the
    single-core profile with the task types ['scf'] and ['strain_pert'] whose
    files are merged.  The [structure] argument plays no part. *)
Theorem mrgddb_container `{Collaborators} (structure structure' : val)
    (wf : Workflow loc) (σ : state) :
  let r := PiezoElasticFWWorkflow.add_mrgddb_task structure wf σ in
  let task := mkTask MergeDdbTask [] [] NoDeps None in
  r = PiezoElasticFWWorkflow.add_mrgddb_task structure' wf σ
  ∧ ∃ fw : Firework loc,
      r.1 = append_fw_to_wf fw wf
      ∧ tasks fw = [task]
      ∧ fw_id fw = (fwid_ctr σ - 1)%Z
      ∧ name fw = "mrgddb"
      ∧ next_loc σ ≤ spec fw
      ∧ deref r.2 (spec fw)
        = <["ddb_files_task_types"
            := VList [VStr "scf"; VStr "strain_pert"]]>
            (<["_queueadapter" := get_short_single_core_spec]>
               (<["mpi_ncpus" := VInt 1]> ∅))
      ∧ (∀ l, l < next_loc σ → heap r.2 !! l = heap σ !! l).
Proof.
  destruct σ as [h n c]. unfold PiezoElasticFWWorkflow.add_mrgddb_task.
  run_monad. split; [done|].
  eexists; split; [reflexivity|]; cbn [tasks fw_id name spec].
  split_and!; try done; try lia.
  all: try (intros l Hl); by heap_norm.
Qed.

(** ** From the builders to the queries *)

Ltac run_builder σ a s ii :=
  let h := fresh "h" in let n := fresh "n" in let c := fresh "c" in
  destruct σ as [h n c];
  destruct (base_spec_run a s ii (mkState h n c))
    as (l & σ1 & stored & d0 & Hrun & Hctr & Hlo & Hhi & Hframe & Hl & Hd0
        & Hii);
  cbv zeta; rewrite base_spec_bind; rewrite (M_bind_run _ _ _ _ _ Hrun);
  destruct σ1 as [h1 n1 c1]; cbn [heap next_loc fwid_ctr] in *; subst c1;
  run_monad.

Ltac eval_string_tests :=
  repeat match goal with
    | |- context [String.eqb ?a ?b] =>
        let v := eval vm_compute in (String.eqb a b) in
        change (String.eqb a b) with v
    end.

(** The containers of a relaxation, as the queries read them once
    [RelaxFWWorkflow] has built the graph. *)
Lemma relax_init_snapshot `{Collaborators} (i j : val) (a : bool)
    (s : option loc) (ii : val) (d : option float) (σ : state) :
  ∃ (s1 s2 : dict) (t1 : Task),
    id_fw (snapshot (RelaxFWWorkflow.init i j a s ii d σ).2
             (RelaxFWWorkflow.init i j a s ii d σ).1)
    = [((fwid_ctr σ - 1)%Z,
        {| tasks := [t1]; spec := s1; name := "Unnamed FW";
           fw_id := (fwid_ctr σ - 1)%Z; launches := [];
           archived_launches := [] |});
       ((fwid_ctr σ - 1 - 1)%Z,
        {| tasks :=
             [if RelaxFWWorkflow.dilatmx_requested d then
                mkTask RelaxDilatmxFWTask [j]
                  (autoparal_kw a
                     ++ [("target_dilatmx", from_option VFloat VNone d)])
                  NoDeps None
              else mkTask RelaxFWTask [j] (autoparal_kw a) NoDeps None];
           spec := s2; name := "Unnamed FW";
           fw_id := (fwid_ctr σ - 1 - 1)%Z; launches := [];
           archived_launches := [] |})]
    ∧ metadata (RelaxFWWorkflow.init i j a s ii d σ).1 = relax_metadata
    ∧ s1 !! "wf_task_index" = Some (VStr ("ion_" +:+ start_task_index a))
    ∧ s2 !! "wf_task_index" = Some (VStr ("ioncell_" +:+ start_task_index a))
    ∧ ((∀ l0, s = Some l0 → l0 < next_loc σ) → a = false →
       s1 !! "mpi_ncpus"
       = match s with Some l0 => deref σ l0 | None => ∅ end !! "mpi_ncpus"
       ∧ s2 !! "mpi_ncpus"
         = match s with Some l0 => deref σ l0 | None => ∅ end
           !! "mpi_ncpus").
Proof.
  unfold RelaxFWWorkflow.init. run_builder σ a s ii.
  unfold snapshot, new_Workflow. run_monad.
  cbn [id_fw map fst snd tasks spec name fw_id launches archived_launches
       metadata name_or].
  heap_norm. rewrite Hl. heap_norm.
  do 3 eexists. split; [reflexivity|].
  split_and!.
  - done.
  - by simplify_map_eq.
  - by simplify_map_eq.
  - intros Hs ->. rewrite Hd0 by done. unfold base_content, deref.
    cbn [heap]. by simplify_map_eq.
Qed.

Lemma relax_metadata_ok (wf : Workflow dict) :
  metadata wf = relax_metadata → metadata_ok wf.
Proof. intros E. unfold metadata_ok. rewrite E. by split. Qed.

Section RelaxRoundTrip.
Context `{Collaborators}.

(** X15.  A relaxation that has just been built has no result: on the graph
    of [RelaxFWWorkflow], [get_runtime_secs] raises [IndexError], and
    [get_final_structure_and_history] raises [IndexError] when the graph was
    built for production and the [RuntimeError] ['Final strucure not
    found ...'] when it was built with [autoparal], for every caller's
    mapping. *)
Theorem fresh_relaxation_has_no_result (i j : val) (a : bool)
    (s : option loc) (ii : val) (d : option float) (σ : state) :
  let r := RelaxFWWorkflow.init i j a s ii d σ in
  RelaxFWWorkflow.get_final_structure_and_history (snapshot r.2 r.1)
  = Raise (if a then RuntimeError "Final strucure not found ..."
           else IndexError)
  ∧ RelaxFWWorkflow.get_runtime_secs (snapshot r.2 r.1) = Raise IndexError.
Proof.
  cbv zeta.
  destruct (relax_init_snapshot i j a s ii d σ)
    as (s1 & s2 & t1 & Hid & Hmeta & Hs1 & Hs2 & _).
  unfold RelaxFWWorkflow.get_final_structure_and_history,
    RelaxFWWorkflow.get_runtime_secs, RelaxFWWorkflow.ioncell_scan.
  rewrite check_metadata_ok by (by apply relax_metadata_ok).
  rewrite Hid.
  cbn [for_each RelaxFWWorkflow.ioncell_scan_step
       RelaxFWWorkflow.runtime_step spec].
  rewrite Hs1, Hs2.
  destruct a; cbn [start_task_index]; (split; [|reflexivity]).
  - reflexivity.
  - simpl. rewrite (proj2 (Z.eqb_neq _ _)) by lia. rewrite Z.eqb_refl.
    reflexivity.
Qed.

(** X16.  Once the second container of a relaxation built for production
    has been launched, [get_final_structure_and_history] reads the final
    structure from the task of this container, the cell relaxation, bound
    to the directory of the launch, and the history from ['history.json'] in
    this directory, for every caller's mapping: the stage index that the
    builder writes is the one that the query looks for. *)
Theorem launched_relaxation_final_structure (i j : val) (s : option loc)
    (ii : val) (d : option float) (σ : state) (l : Launch) :
  let r := RelaxFWWorkflow.init i j false s ii d σ in
  let ioncell_task :=
    if RelaxFWWorkflow.dilatmx_requested d then
      mkTask RelaxDilatmxFWTask [j]
        [("is_autoparal", VBool false);
         ("target_dilatmx", from_option VFloat VNone d)] NoDeps None
    else
      mkTask RelaxFWTask [j] [("is_autoparal", VBool false)] NoDeps None in
  RelaxFWWorkflow.get_final_structure_and_history
    (record_launch (fwid_ctr σ - 2) l (snapshot r.2 r.1))
  = (structure ←
       get_final_structure (set_workdir ioncell_task (launch_dir l));
     history ← loadfn (path_join (launch_dir l) "history.json");
     structure_dict ← as_dict structure;
     Ok (<["structure" := structure_dict]> (<["history" := history]> ∅))).
Proof.
  cbv zeta.
  destruct (relax_init_snapshot i j false s ii d σ)
    as (s1 & s2 & t1 & Hid & Hmeta & Hs1 & Hs2 & _).
  unfold RelaxFWWorkflow.get_final_structure_and_history,
    RelaxFWWorkflow.ioncell_scan, record_launch, with_containers.
  rewrite check_metadata_ok by (by apply relax_metadata_ok).
  cbn [id_fw]. rewrite Hid. cbn [map fst snd].
  rewrite (proj2 (Z.eqb_neq (fwid_ctr σ - 1) (fwid_ctr σ - 2))) by lia.
  rewrite (proj2 (Z.eqb_eq (fwid_ctr σ - 1 - 1) (fwid_ctr σ - 2))) by lia.
  cbn [for_each RelaxFWWorkflow.ioncell_scan_step spec tasks launches
       archived_launches name fw_id].
  rewrite Hs1, Hs2. cbn [start_task_index]. simpl.
  rewrite (proj2 (Z.eqb_neq _ _)) by lia. rewrite Z.eqb_refl.
  reflexivity.
Qed.

(** X17.  The compute time of a relaxation whose two containers have been
    launched and have run for [t1] and [t2] seconds.  When the graph was
    built with [autoparal], the total is [t1 + t2].  When it was built for
    production, each runtime is multiplied by the ['mpi_ncpus'] of the
    caller's mapping, and the query raises [KeyError] when the caller's
    mapping has no such entry: the builder does not write one. *)
Theorem launched_relaxation_runtime (i j : val) (a : bool) (s : option loc)
    (ii : val) (d : option float) (σ : state) (dir1 dir2 : string)
    (t1 t2 : float) :
  allocated_call (CallRelaxFW i j a s ii d) σ →
  let r := RelaxFWWorkflow.init i j a s ii d σ in
  RelaxFWWorkflow.get_runtime_secs
    (record_launch (fwid_ctr σ - 2) (mkLaunch dir2 (Some t2))
       (record_launch (fwid_ctr σ - 1) (mkLaunch dir1 (Some t1))
          (snapshot r.2 r.1)))
  = if a then Ok (PrimFloat.add (PrimFloat.add 0 t1) t2)
    else
      n ← getitem (caller_spec (CallRelaxFW i j a s ii d) σ) "mpi_ncpus";
      x1 ← runtime_mul (Some t1) n;
      x2 ← runtime_mul (Some t2) n;
      Ok (PrimFloat.add (PrimFloat.add 0 x1) x2).
Proof.
  unfold allocated_call, caller_spec. cbn [call_spec]. intros Halloc.
  cbv zeta.
  destruct (relax_init_snapshot i j a s ii d σ)
    as (s1 & s2 & t & Hid & Hmeta & Hs1 & Hs2 & Hcpu).
  unfold RelaxFWWorkflow.get_runtime_secs, record_launch, with_containers.
  rewrite check_metadata_ok by (by apply relax_metadata_ok).
  cbn [id_fw]. rewrite Hid. cbn [map fst snd].
  rewrite (Z.eqb_refl (fwid_ctr σ - 1)).
  rewrite (proj2 (Z.eqb_neq (fwid_ctr σ - 1 - 1) (fwid_ctr σ - 1))) by lia.
  cbn [fst snd].
  rewrite (proj2 (Z.eqb_neq (fwid_ctr σ - 1) (fwid_ctr σ - 2))) by lia.
  rewrite (proj2 (Z.eqb_eq (fwid_ctr σ - 1 - 1) (fwid_ctr σ - 2))) by lia.
  cbn [for_each RelaxFWWorkflow.runtime_step spec tasks launches
       archived_launches name fw_id fst snd].
  rewrite Hs1, Hs2. destruct a; cbn [start_task_index].
  - reflexivity.
  - destruct (Hcpu Halloc eq_refl) as [Hc1 Hc2].
    unfold getitem. rewrite Hc1, Hc2.
    destruct (match s with Some l0 => deref σ l0 | None => ∅ end
              !! "mpi_ncpus") as [n|]; [|reflexivity].
    eval_string_tests.
    cbn [mbind result_bind app list_last last runtime_secs].
    destruct (runtime_mul (Some t1) n) as [x1|]; [|reflexivity].
    cbn [mbind result_bind runtime_add].
    destruct (runtime_mul (Some t2) n) as [x2|]; reflexivity.
Qed.

End RelaxRoundTrip.

Lemma launched_relaxation_runtime_witness :
  RelaxFWWorkflow.get_runtime_secs
    (record_launch (-2) (mkLaunch "/run/2" (Some 25%float))
       (record_launch (-1) (mkLaunch "/run/1" (Some 20%float))
          (snapshot
             (@RelaxFWWorkflow.init example_collaborators (VStr "ion")
                (VStr "ioncell") false (Some 0) VNone None caller_state).2
             (@RelaxFWWorkflow.init example_collaborators (VStr "ion")
                (VStr "ioncell") false (Some 0) VNone None caller_state).1)))
  = Ok 720%float.
Proof.
  refine (eq_trans
    (@launched_relaxation_runtime example_collaborators (VStr "ion")
       (VStr "ioncell") false (Some 0) VNone None caller_state
       "/run/1" "/run/2" 20%float 25%float _) _).
  - intros l0 [= <-]. simpl. lia.
  - vm_compute. reflexivity.
Defined.

(** *** Which graphs the queries accept *)

Lemma build_metadata `{Collaborators} (c : builder_call) (σ : state) :
  metadata (build c σ).1
  = match c with
    | CallRelaxFW _ _ _ _ _ _ => relax_metadata
    | CallPhononFW _ _ _ _ _ => phonon_metadata
    | CallPiezoElasticFW _ _ _ _ _ _ => piezo_metadata
    | _ => ∅
    end.
Proof.
  destruct c as [i t a s ii|i a s ii|i j a s ii d|i j a s|i j a s ii
                 |i j a s ii|i j k a s ii]; cbn [build].
  - unfold InputFWWorkflow.init. run_builder σ a s ii. done.
  - unfold ScfFWWorkflow.init. run_builder σ a s ii. done.
  - unfold RelaxFWWorkflow.init. run_builder σ a s ii. done.
  - unfold NscfFWWorkflow.init. destruct σ as [h n c].
    destruct a, s; run_monad; done.
  - unfold HybridOneShotFWWorkflow.init. run_builder σ a s ii. done.
  - unfold PhononFWWorkflow.init. run_builder σ a s ii. done.
  - unfold PiezoElasticFWWorkflow.init. run_builder σ a s ii. done.
Qed.

(** X18.  Of the graphs that the constructors build, the queries of
    [RelaxFWWorkflow] pass their assertions on those of [RelaxFWWorkflow]
    only, and the queries of [PiezoElasticFWWorkflow] on those of
    [PiezoElasticFWWorkflow] only.  On a graph of another class with
    metadata the assertion fails, and on a graph of a class without
    metadata the lookup of ['workflow_class'] raises [KeyError]. *)
Theorem queries_accept_their_class_only `{Collaborators} (c : builder_call)
    (σ : state) :
  let wf := snapshot (build c σ).2 (build c σ).1 in
  RelaxFWWorkflow.check_metadata wf
  = match c with
    | CallRelaxFW _ _ _ _ _ _ => Ok tt
    | CallPhononFW _ _ _ _ _ | CallPiezoElasticFW _ _ _ _ _ _ =>
        Raise AssertionError
    | _ => Raise (KeyError (VStr "workflow_class"))
    end
  ∧ PiezoElasticFWWorkflow.check_metadata wf
    = match c with
      | CallPiezoElasticFW _ _ _ _ _ _ => Ok tt
      | CallPhononFW _ _ _ _ _ | CallRelaxFW _ _ _ _ _ _ =>
          Raise AssertionError
      | _ => Raise (KeyError (VStr "workflow_class"))
      end.
Proof.
  cbv zeta.
  unfold RelaxFWWorkflow.check_metadata,
    PiezoElasticFWWorkflow.check_metadata, snapshot.
  cbn [metadata]. rewrite build_metadata.
  destruct c; split; reflexivity.
Qed.

(** *** The post-processing of [PiezoElasticFWWorkflow] *)

(** The containers of the graph of [PiezoElasticFWWorkflow], as the queries
    read them: three stages and the container ['anaddb']. *)
Lemma piezo_init_snapshot `{Collaborators} (i j k : val) (a : bool)
    (s : option loc) (ii : val) (σ : state) :
  ∃ (fw1 fw2 fw3 : Firework dict) (s4 : dict),
    id_fw (snapshot (PiezoElasticFWWorkflow.init i j k a s ii σ).2
             (PiezoElasticFWWorkflow.init i j k a s ii σ).1)
    = [((fwid_ctr σ - 1)%Z, fw1);
       ((fwid_ctr σ - 1 - 1)%Z, fw2);
       ((fwid_ctr σ - 1 - 1 - 1)%Z, fw3);
       ((fwid_ctr σ - 1 - 1 - 1 - 1)%Z,
        {| tasks :=
             [mkTask AnaDdbTask [piezo_elastic (structure_attr i)] []
                NoDeps None];
           spec := s4; name := "anaddb";
           fw_id := (fwid_ctr σ - 1 - 1 - 1 - 1)%Z; launches := [];
           archived_launches := [] |})].
Proof.
  unfold PiezoElasticFWWorkflow.init. run_builder σ a s ii.
  unfold snapshot, append_fw_to_wf, new_Workflow.
  cbn [id_fw map app fst snd tasks spec name fw_id launches
       archived_launches].
  do 4 eexists. reflexivity.
Qed.

Section PiezoRoundTrip.
Context `{Collaborators} `{AuxCollaborators}.

(** X19.  On the graph of [PiezoElasticFWWorkflow] the query
    [get_elastic_tensor_and_history] finds the container ['anaddb'] that the
    constructor appends, whatever the names of the three stages are.  Before
    this container is launched the query raises [IndexError]; once it is
    launched, the query reads the elastic tensor from its task, bound to the
    directory of the launch, and the history from ['history.json'] in this
    directory. *)
Theorem piezo_graph_elastic_tensor (i j k : val) (a : bool)
    (s : option loc) (ii : val) (σ : state) (l : Launch) :
  let r := PiezoElasticFWWorkflow.init i j k a s ii σ in
  let anaddb_task :=
    mkTask AnaDdbTask [piezo_elastic (structure_attr i)] [] NoDeps None in
  PiezoElasticFWWorkflow.get_elastic_tensor_and_history (snapshot r.2 r.1)
  = Raise IndexError
  ∧ PiezoElasticFWWorkflow.get_elastic_tensor_and_history
      (record_launch (fwid_ctr σ - 4) l (snapshot r.2 r.1))
    = (elastic_tensor ←
         get_elastic_tensor (set_workdir anaddb_task (launch_dir l));
       history ← loadfn (path_join (launch_dir l) "history.json");
       properties ← extended_dict elastic_tensor;
       Ok (<["elastic_properties" := properties]>
             (<["history" := history]> ∅))).
Proof.
  cbv zeta.
  destruct (piezo_init_snapshot i j k a s ii σ)
    as (fw1 & fw2 & fw3 & s4 & Hid).
  pose proof (build_metadata (CallPiezoElasticFW i j k a s ii) σ) as Hmeta.
  cbn [build] in Hmeta.
  split.
  - unfold PiezoElasticFWWorkflow.get_elastic_tensor_and_history.
    rewrite piezo_check_metadata_ok
      by (unfold piezo_metadata_ok, snapshot; cbn [metadata];
          rewrite Hmeta; by split).
    erewrite (anaddb_scan_last _ [_; _; _] []);
      [|exact Hid|reflexivity|set_solver].
    rewrite Hid. cbn [assoc_get fst snd mbind result_bind].
    rewrite !(proj2 (Z.eqb_neq _ _)) by lia. rewrite Z.eqb_refl.
    reflexivity.
  - unfold PiezoElasticFWWorkflow.get_elastic_tensor_and_history.
    rewrite piezo_check_metadata_ok
      by (unfold piezo_metadata_ok, record_launch, with_containers, snapshot;
          cbn [metadata]; rewrite Hmeta; by split).
    assert (id_fw (record_launch (fwid_ctr σ - 4) l
                     (snapshot (PiezoElasticFWWorkflow.init i j k a s ii σ).2
                        (PiezoElasticFWWorkflow.init i j k a s ii σ).1))
            = [((fwid_ctr σ - 1)%Z, fw1);
               ((fwid_ctr σ - 1 - 1)%Z, fw2);
               ((fwid_ctr σ - 1 - 1 - 1)%Z, fw3);
               ((fwid_ctr σ - 1 - 1 - 1 - 1)%Z,
                {| tasks :=
                     [mkTask AnaDdbTask [piezo_elastic (structure_attr i)] []
                        NoDeps None];
                   spec := s4; name := "anaddb";
                   fw_id := (fwid_ctr σ - 1 - 1 - 1 - 1)%Z; launches := [l];
                   archived_launches := [] |})]) as Hid'.
    { unfold record_launch, with_containers. cbn [id_fw]. rewrite Hid.
      cbn [map fst snd].
      rewrite !(proj2 (Z.eqb_neq _ (fwid_ctr σ - 4))) by lia.
      by rewrite (proj2 (Z.eqb_eq _ (fwid_ctr σ - 4))) by lia. }
    erewrite (anaddb_scan_last _ [_; _; _] []);
      [|exact Hid'|reflexivity|set_solver].
    rewrite Hid'. cbn [assoc_get fst snd mbind result_bind].
    rewrite !(proj2 (Z.eqb_neq _ _)) by lia. rewrite Z.eqb_refl.
    reflexivity.
Qed.

End PiezoRoundTrip.

(** *** The inputs of [PhononFWWorkflow.from_factory] *)

Lemma phonon_init_tasks `{Collaborators} (i j : val) (a : bool)
    (s : option loc) (ii : val) (σ : state) :
  map (λ x : Z * Firework loc, tasks x.2)
    (id_fw (PhononFWWorkflow.init i j a s ii σ).1)
  = [[mkTask ScfFWTask [i] (autoparal_kw a) NoDeps None];
     [mkTask GeneratePhononFlowFWTask [j]
        [("previous_task_type", VStr (task_type ScfFWTask));
         ("with_autoparal", VBool a)] NoDeps None]].
Proof. unfold PhononFWWorkflow.init. run_builder σ a s ii. done. Qed.

(** X20.  [PhononFWWorkflow.from_factory] hands to the factory of the
    ground-state input a new mapping: the entries of the caller's
    [extra_abivars] with ['tolwfr'] set to [scf_tol], or to [1.e-22] when
    [scf_tol] is [None] or zero, whatever the caller has for ['tolwfr'].  The
    factory of the phonon inputs receives the caller's mapping itself, which
    is left as it was.  The two factories are the inputs of the two
    containers. *)
Theorem phonon_from_factory_tolerance `{Collaborators} `{AuxCollaborators}
    (structure pseudos : val) (options : FactoryOptions)
    (ph_options : PhononOptions) (scf_tol : option float)
    (extra_abivars : option loc) (decorators : option (list Decorator))
    (a : bool) (s : option loc) (ii : val) (σ : state) :
  (∀ l0, extra_abivars = Some l0 → l0 < next_loc σ) →
  let r :=
    PhononFWWorkflow.from_factory structure pseudos options ph_options
      scf_tol extra_abivars decorators a s ii σ in
  let given :=
    match extra_abivars with Some l0 => deref σ l0 | None => ∅ end in
  ∃ vars vars_scf : loc,
    map (λ x : Z * Firework loc, tasks x.2) (id_fw r.1)
    = [[mkTask ScfFWTask
          [ScfForPhononsFactory structure pseudos options vars_scf
             (default [] decorators)]
          (autoparal_kw a) NoDeps None];
       [mkTask GeneratePhononFlowFWTask
          [PhononsFromGsFactory ph_options vars (default [] decorators)]
          [("previous_task_type", VStr (task_type ScfFWTask));
           ("with_autoparal", VBool a)] NoDeps None]]
    ∧ (∀ l0, extra_abivars = Some l0 → vars = l0)
    ∧ next_loc σ ≤ vars_scf ∧ vars_scf ≠ vars
    ∧ deref r.2 vars = given
    ∧ deref r.2 vars_scf
      = <["tolwfr" :=
            VFloat match scf_tol with
                   | Some t =>
                       if PrimFloat.eqb t 0
                       then PhononFWWorkflow.default_tolwfr else t
                   | None => PhononFWWorkflow.default_tolwfr
                   end]> given.
Proof.
  destruct σ as [h n c]. cbn [next_loc]. intros Halloc. cbv zeta.
  unfold PhononFWWorkflow.from_factory.
  destruct extra_abivars as [l0|], s as [l1|], ii;
    cbv beta iota zeta delta
      [mbind M_bind mret M_ret dict_copy read_dict new_dict setitem
       modify_dict default_dict default_obj];
    unfold deref; cbn [heap next_loc fwid_ctr].
  all: match goal with
       | |- context [PhononFWWorkflow.init ?x ?y ?a ?s ?ii ?σ1] =>
           destruct (phonon_post x y a s ii σ1) as (_ & Hframe & _);
           rewrite (phonon_init_tasks x y a s ii σ1)
       end.
  all: cbn [next_loc heap] in Hframe.
  all: try specialize (Halloc _ eq_refl).
  all: do 2 eexists; split; [reflexivity|].
  all: cbn [next_loc]; unfold loc in *.
  all: split_and!; [by (intros ? [= <-] || intros ? [=])|lia|lia|..].
  all: rewrite Hframe by lia; heap_norm; try done.
  all: destruct scf_tol as [t|]; cbn [PhononFWWorkflow.tolerance_given];
    try done.
  all: by destruct (PrimFloat.eqb t 0).
Qed.

Lemma phonon_from_factory_tolerance_witness :
  ∃ vars_scf : loc,
    deref
      (@PhononFWWorkflow.from_factory example_collaborators
         example_aux_collaborators (VStr "structure") (VStr "pseudos")
         example_options
         (mkPhononOptions VNone (VBool true) (VBool true) (VBool false)
            VNone VNone VNone)
         None (Some 0) None false None VNone caller_state).2 vars_scf
    = <["tolwfr" := VFloat PhononFWWorkflow.default_tolwfr]>
        (deref caller_state 0)
    ∧ deref
        (@PhononFWWorkflow.from_factory example_collaborators
           example_aux_collaborators (VStr "structure") (VStr "pseudos")
           example_options
           (mkPhononOptions VNone (VBool true) (VBool true) (VBool false)
              VNone VNone VNone)
           None (Some 0) None false None VNone caller_state).2 0
      = deref caller_state 0.
Proof.
  destruct (@phonon_from_factory_tolerance example_collaborators
              example_aux_collaborators (VStr "structure") (VStr "pseudos")
              example_options
              (mkPhononOptions VNone (VBool true) (VBool true) (VBool false)
                 VNone VNone VNone)
              None (Some 0) None false None VNone caller_state)
    as (vars & vars_scf & _ & Hvars & _ & _ & Hgiven & Hscf).
  - intros l0 [= <-]. simpl. lia.
  - pose proof (Hvars 0 eq_refl) as ->.
    exists vars_scf. split; [exact Hscf|exact Hgiven].
Defined.

(** *** The inputs of the other factories *)

Lemma relax_init_task_args `{Collaborators} (i j : val) (a : bool)
    (s : option loc) (ii : val) (d : option float) (σ : state) :
  map (λ x : Z * Firework loc, map task_args (tasks x.2))
    (id_fw (RelaxFWWorkflow.init i j a s ii d σ).1)
  = [[[i]]; [[j]]].
Proof.
  unfold RelaxFWWorkflow.init. run_builder σ a s ii.
  unfold new_Workflow. cbn [id_fw map snd tasks].
  by destruct (RelaxFWWorkflow.dilatmx_requested d).
Qed.

(** X21.  [RelaxFWWorkflow.from_factory] builds the first container on the
    input of the ionic relaxation that the factory generates, with the
    caller's [extra_abivars] set and the decorators applied in list order,
    each to what the one before returned.  The second container gets the
    factory of the cell relaxation, which receives the accuracy, the same
    variables and the same decorators. *)
Theorem relax_from_factory_inputs `{Collaborators} (structure pseudos : val)
    (options : FactoryOptions) (extra_abivars : option loc)
    (decorators : option (list Decorator)) (a : bool) (s : option loc)
    (ii : val) (d : option float) (σ : state) :
  (∀ l0, extra_abivars = Some l0 → l0 < next_loc σ) →
  let r :=
    RelaxFWWorkflow.from_factory structure pseudos options extra_abivars
      decorators a s ii d σ in
  let vars :=
    match extra_abivars with Some l0 => deref σ l0 | None => ∅ end in
  map (λ x : Z * Firework loc, map task_args (tasks x.2)) (id_fw r.1)
  = [[[foldl (λ inp d, dec_return d inp)
         (set_vars (ion_ioncell_relax_input structure pseudos options).1
            vars)
         (default [] decorators)]];
     [[IoncellRelaxFromGsFactory (accuracy options) vars
         (default [] decorators)]]].
Proof.
  destruct σ as [h n c]. cbn [next_loc]. intros Halloc. cbv zeta.
  unfold RelaxFWWorkflow.from_factory.
  destruct extra_abivars as [l0|], s as [l1|], ii;
    cbv beta iota zeta delta
      [mbind M_bind mret M_ret dict_copy read_dict new_dict setitem
       modify_dict default_dict default_obj];
    unfold deref; cbn [heap next_loc fwid_ctr].
  all: rewrite relax_init_task_args.
  all: try specialize (Halloc _ eq_refl); unfold loc in *.
  all: heap_norm; done.
Qed.

Lemma relax_from_factory_inputs_witness :
  map (λ x : Z * Firework loc, map task_args (tasks x.2))
    (id_fw
       (@RelaxFWWorkflow.from_factory example_collaborators (VStr "Si2")
          (VStr "pseudos") example_options (Some 0)
          (Some example_decorators) false None VNone None caller_state).1)
  = [[[VStr "ion_input+d1+d2"]]; [[VStr "ioncell_factory"]]].
Proof.
  apply (@relax_from_factory_inputs example_collaborators (VStr "Si2")
           (VStr "pseudos") example_options (Some 0)
           (Some example_decorators) false None VNone None caller_state).
  intros l0 [= <-]. simpl. lia.
Defined.

Lemma foldl_inplace_id (decorators : list Decorator) (v : val) :
  (∀ d w, d ∈ decorators → dec_inplace d w = w) →
  foldl (λ inp d, dec_inplace d inp) v decorators = v.
Proof.
  revert v. induction decorators as [|d l IH]; intros v Hid; [done|].
  cbn [foldl]. rewrite Hid by set_solver. apply IH.
  intros d' w Hd'. apply Hid. set_solver.
Qed.

(** X22.  With decorators that leave their argument as it is,
    [ScfFWWorkflow.from_factory] builds what it builds without decorators:
    the same workflow and the same store. *)
Theorem scf_from_factory_ignores_returned_inputs `{Collaborators}
    (structure pseudos : val) (options : FactoryOptions)
    (extra_abivars : option loc) (decorators : list Decorator) (a : bool)
    (s : option loc) (σ : state) :
  (∀ d w, d ∈ decorators → dec_inplace d w = w) →
  ScfFWWorkflow.from_factory structure pseudos options extra_abivars
    (Some decorators) a s σ
  = ScfFWWorkflow.from_factory structure pseudos options extra_abivars
      None a s σ.
Proof.
  intros Hid. unfold ScfFWWorkflow.from_factory.
  destruct extra_abivars as [l0|], s as [l1|];
    cbv beta iota zeta delta
      [mbind M_bind mret M_ret dict_copy read_dict new_dict setitem
       modify_dict default_dict default_obj default from_option];
    by rewrite foldl_inplace_id.
Qed.

Lemma scf_from_factory_ignores_returned_inputs_witness :
  @ScfFWWorkflow.from_factory example_collaborators (VStr "Si2")
    (VStr "pseudos") example_options None (Some example_decorators) false
    None empty_state
  = @ScfFWWorkflow.from_factory example_collaborators (VStr "Si2")
      (VStr "pseudos") example_options None None false None empty_state.
Proof.
  apply (@scf_from_factory_ignores_returned_inputs example_collaborators).
  intros d w Hd%list_elem_of_In. simpl in Hd.
  destruct Hd as [<-|[<-|[]]]; reflexivity.
Defined.

(** X23.  A [target_dilatmx] of zero counts as none: the constructor of
    [RelaxFWWorkflow] builds the cell relaxation with the plain relaxation
    task then, as it does without [target_dilatmx]. *)
Theorem zero_dilatmx_is_no_dilatmx `{Collaborators} (i j : val) (a : bool)
    (s : option loc) (ii : val) (f : float) (σ : state) :
  PrimFloat.eqb f 0 = true →
  RelaxFWWorkflow.init i j a s ii (Some f) σ
  = RelaxFWWorkflow.init i j a s ii None σ.
Proof.
  intros Hf. unfold RelaxFWWorkflow.init, RelaxFWWorkflow.dilatmx_requested.
  by rewrite Hf.
Qed.

Lemma zero_dilatmx_is_no_dilatmx_witness :
  @RelaxFWWorkflow.init example_collaborators (VStr "ion") (VStr "ioncell")
    false None VNone (Some (-0)%float) empty_state
  = @RelaxFWWorkflow.init example_collaborators (VStr "ion") (VStr "ioncell")
      false None VNone None empty_state.
Proof.
  apply (@zero_dilatmx_is_no_dilatmx example_collaborators).
  reflexivity.
Defined.
